(** * Cradle API client (cradle-client-ts/cradle-api-client.ts)

    A shallow embedding of the typed HTTP client: the response envelope,
    the filter objects and their query-string builders, the tagged mutation
    union with its type-guard helpers, and the transport adapter
    ([CradleApiClient.request]) with the endpoint methods built on it.

    TypeScript types are erased at run time, so every value that crosses
    the HTTP boundary is a [JsValue]; the declared interfaces are records
    and inductive types with their run-time representation next to them.
    Asynchronous methods live in the [Async] monad: a call either returns
    or throws, and every HTTP call that was issued is appended to a log. *)

From Stdlib Require Import String Ascii List ZArith Bool.
Import ListNotations.
Open Scope list_scope.
Open Scope string_scope.

(** ** JavaScript values *)

Module Js.

#[local] Set Warnings "-register-all".

(** The values that JSON bodies, thrown values and request payloads are
    made of.  Objects keep their keys in insertion order, as
    [JSON.stringify] and [Object.keys] see them.  The numbers this client
    handles itself (HTTP statuses, timeouts in milliseconds) are
    integers. *)
Inductive JsValue : Type :=
| JUndefined
| JNull
| JBool (b : bool)
| JNum (n : Z)
| JStr (s : string)
| JArr (items : list JsValue)
| JObj (fields : list (string * JsValue)).

(** [if (v)]: undefined, null, false, 0 and the empty string are falsy. *)
Definition truthy (v : JsValue) : bool :=
  match v with
  | JUndefined | JNull => false
  | JBool b => b
  | JNum n => negb (n =? 0)%Z
  | JStr s => negb (s =? "")
  | JArr _ | JObj _ => true
  end.

(** [a || b] *)
Definition or_else (a b : JsValue) : JsValue :=
  if truthy a then a else b.

Fixpoint lookup (k : string) (fields : list (string * JsValue)) : option JsValue :=
  match fields with
  | [] => None
  | (k', v) :: rest => if k =? k' then Some v else lookup k rest
  end.

(** Property read [v.k]; a missing property reads as undefined.  (Reading a
    property of null or undefined throws in JavaScript; the client reads
    properties through [?.], which yields undefined there, or after an
    [in] test on the same object has succeeded.) *)
Definition get (k : string) (v : JsValue) : JsValue :=
  match v with
  | JObj fields =>
      match lookup k fields with
      | Some x => x
      | None => JUndefined
      end
  | _ => JUndefined
  end.

(** The operator [k in v]: key presence on objects, [None] for the
    TypeError raised when the right operand is not an object.  None of the
    keys tested by this client is an inherited property or an array
    index, so an array has none of them. *)
Definition has_key (k : string) (v : JsValue) : option bool :=
  match v with
  | JObj fields =>
      Some (match lookup k fields with Some _ => true | None => false end)
  | JArr _ => Some false
  | _ => None
  end.

(** [a && b] on the results of two [in] tests, [b] evaluated only when [a]
    is true. *)
Definition and_then (a : option bool) (b : option bool) : option bool :=
  match a with
  | Some true => b
  | Some false => Some false
  | None => None
  end.

Definition is_nullish (v : JsValue) : bool :=
  match v with
  | JUndefined | JNull => true
  | _ => false
  end.

(** Truthiness of an optional string field: [if (filters?.wallet)]. *)
Definition truthy_field (field : option string) : bool :=
  match field with
  | Some s => negb (s =? "")
  | None => false
  end.

End Js.
Import Js.

(** ** URLSearchParams *)

Module Url.

(** The entries of a [URLSearchParams] object, in insertion order. *)
Definition URLSearchParams : Type := list (string * string).

Definition append (params : URLSearchParams) (name value : string) : URLSearchParams :=
  (params ++ [(name, value)])%list.

(** Bytes the application/x-www-form-urlencoded serializer leaves as they
    are: ASCII alphanumerics and [*], [-], [.], [_]. *)
Definition unreserved (c : ascii) : bool :=
  let n := nat_of_ascii c in
  (((48 <=? n) && (n <=? 57)) || ((65 <=? n) && (n <=? 90))
   || ((97 <=? n) && (n <=? 122))
   || (n =? 42) || (n =? 45) || (n =? 46) || (n =? 95))%nat.

Definition hex_digit (n : nat) : ascii :=
  match String.get n "0123456789ABCDEF" with
  | Some c => c
  | None => "0"%char
  end.

Definition percent_encode_byte (c : ascii) : string :=
  let n := nat_of_ascii c in
  String "%" (String (hex_digit (n / 16)) (String (hex_digit (n mod 16)) "")).

(** Strings are their UTF-8 bytes.  A space becomes [+], an unreserved
    byte stays, every other byte becomes [%XX]. *)
Fixpoint form_urlencode (s : string) : string :=
  match s with
  | "" => ""
  | String c rest =>
      (if unreserved c then String c ""
       else if (c =? " ")%char then "+"
       else percent_encode_byte c) ++ form_urlencode rest
  end.

Definition serialize_pair (p : string * string) : string :=
  form_urlencode (fst p) ++ "=" ++ form_urlencode (snd p).

(** [params.toString()] *)
Definition toString (params : URLSearchParams) : string :=
  String.concat "&" (map serialize_pair params).

End Url.


(** ** encodeURIComponent and the parsing side of the encodings *)

Module Uri.

(** Bytes [encodeURIComponent] leaves as they are: ASCII alphanumerics
    and [-], [_], [.], [!], [~], [*], ['], [(], [)]. *)
Definition unreserved (c : ascii) : bool :=
  let n := nat_of_ascii c in
  (((48 <=? n) && (n <=? 57)) || ((65 <=? n) && (n <=? 90))
   || ((97 <=? n) && (n <=? 122))
   || (n =? 45) || (n =? 95) || (n =? 46) || (n =? 33) || (n =? 126)
   || (n =? 42) || (n =? 39) || (n =? 40) || (n =? 41))%nat.

(** Strings are their UTF-8 bytes: an unreserved byte stays, every other
    byte becomes [%XX]. *)
Fixpoint encodeURIComponent (s : string) : string :=
  match s with
  | "" => ""
  | String c rest =>
      (if unreserved c then String c "" else Url.percent_encode_byte c)
      ++ encodeURIComponent rest
  end.

(** The value of a hexadecimal digit. *)
Definition hex_value (c : ascii) : option nat :=
  let n := nat_of_ascii c in
  if ((48 <=? n) && (n <=? 57))%nat then Some (n - 48)
  else if ((65 <=? n) && (n <=? 70))%nat then Some (n - 55)
  else if ((97 <=? n) && (n <=? 102))%nat then Some (n - 87)
  else None.

(** Percent-decoding: [%XX] with two hexadecimal digits is the byte XX,
    anything else stands for itself; with [plus] set, [+] is a space. *)
Fixpoint percent_decode (plus : bool) (s : string) : string :=
  match s with
  | "" => ""
  | String c rest =>
      if (c =? "%")%char then
        match rest with
        | String h (String l rest') =>
            match hex_value h, hex_value l with
            | Some x, Some y =>
                String (ascii_of_nat (16 * x + y)) (percent_decode plus rest')
            | _, _ => String c (percent_decode plus rest)
            end
        | _ => String c (percent_decode plus rest)
        end
      else if plus && (c =? "+")%char then String " " (percent_decode plus rest)
      else String c (percent_decode plus rest)
  end.

(** The pieces of [s] between occurrences of [sep]. *)
Fixpoint split_on (sep : ascii) (s : string) : list string :=
  match s with
  | "" => [""]
  | String c rest =>
      if (c =? sep)%char then "" :: split_on sep rest
      else match split_on sep rest with
           | piece :: pieces => String c piece :: pieces
           | [] => [String c ""]
           end
  end.

(** [s] cut at the first [sep]: what is before it and what is after it
    (all of [s] and nothing when there is none). *)
Fixpoint break_at (sep : ascii) (s : string) : string * string :=
  match s with
  | "" => ("", "")
  | String c rest =>
      if (c =? sep)%char then ("", rest)
      else (String c (fst (break_at sep rest)), snd (break_at sep rest))
  end.

(** The application/x-www-form-urlencoded parser, which is how the
    receiving side reads a query string: the non-empty pieces between
    [&] are cut at their first [=] and both halves are decoded. *)
Definition parse_query (query : string) : Url.URLSearchParams :=
  map (fun piece =>
         (percent_decode true (fst (break_at "=" piece)),
          percent_decode true (snd (break_at "=" piece))))
      (filter (fun piece => negb (piece =? "")) (split_on "&" query)).

(** Whether a string is free of lone surrogates.  A lone surrogate has no
    UTF-8 form; among the bytes of a string it is written in the
    generalized encoding, [ED] followed by a byte from [A0] to [BF] and
    one more byte, which no well-formed text contains.  On a string with
    a lone surrogate [encodeURIComponent] throws a URIError, and
    URLSearchParams keeps every other string as it is passed. *)
Fixpoint well_formed (s : string) : bool :=
  match s with
  | "" => true
  | String c rest =>
      negb ((nat_of_ascii c =? 237)%nat
            && match rest with
               | String d _ =>
                   ((160 <=? nat_of_ascii d) && (nat_of_ascii d <=? 191))%nat
               | "" => false
               end)
      && well_formed rest
  end.

(** Whether every byte of [s] satisfies [p]. *)
Fixpoint all_bytes (p : ascii -> bool) (s : string) : bool :=
  match s with
  | "" => true
  | String c rest => p c && all_bytes p rest
  end.

End Uri.

(** ** Data model *)

(** String-literal unions are enumerations; [str] is the string each
    member is at run time. *)

Module CradleAccountType.
Inductive t : Type := retail | institutional.
Definition str (x : t) : string :=
  match x with retail => "retail" | institutional => "institutional" end.
End CradleAccountType.

Module MarketStatus.
Inductive t : Type := active | inactive | suspended.
Definition str (x : t) : string :=
  match x with active => "active" | inactive => "inactive" | suspended => "suspended" end.
End MarketStatus.

Module MarketType.
Inductive t : Type := spot | derivative | futures.
Definition str (x : t) : string :=
  match x with spot => "spot" | derivative => "derivative" | futures => "futures" end.
End MarketType.

Module MarketRegulation.
Inductive t : Type := regulated | unregulated.
Definition str (x : t) : string :=
  match x with regulated => "regulated" | unregulated => "unregulated" end.
End MarketRegulation.

Module OrderStatus.
Inductive t : Type := open | closed | cancelled.
Definition str (x : t) : string :=
  match x with open => "open" | closed => "closed" | cancelled => "cancelled" end.
End OrderStatus.

Module OrderType.
Inductive t : Type := limit | market.
Definition str (x : t) : string :=
  match x with limit => "limit" | market => "market" end.
End OrderType.

Module OrderFillStatus.
Inductive t : Type := partial | filled | cancelled.
Definition str (x : t) : string :=
  match x with partial => "partial" | filled => "filled" | cancelled => "cancelled" end.
End OrderFillStatus.

Module TimeSeriesInterval.
Inductive t : Type :=
  i1min | i5min | i15min | i30min | i1hr | i4hr | i1day | i1week.
Definition str (x : t) : string :=
  match x with
  | i1min => "1min" | i5min => "5min" | i15min => "15min" | i30min => "30min"
  | i1hr => "1hr" | i4hr => "4hr" | i1day => "1day" | i1week => "1week"
  end.
End TimeSeriesInterval.

Module LoanStatus.
Inductive t : Type := active | repaid | liquidated.
Definition str (x : t) : string :=
  match x with active => "active" | repaid => "repaid" | liquidated => "liquidated" end.
End LoanStatus.

(** Filter objects: every field is optional ([None] is an omitted field). *)

Module MarketFilters.
Record t : Type := mk {
  market_type : option MarketType.t;
  status : option MarketStatus.t;
  regulation : option MarketRegulation.t
}.
End MarketFilters.

Module OrderFilters.
Record t : Type := mk {
  wallet : option string;
  market_id : option string;
  status : option OrderStatus.t;
  order_type : option OrderType.t;
  from_date : option string;
  to_date : option string
}.
End OrderFilters.

Module TimeSeriesFilters.
Record t : Type := mk {
  market_id : option string;
  asset : option string;
  interval : option TimeSeriesInterval.t;
  start_time : option string;
  end_time : option string;
  data_provider : option string
}.
End TimeSeriesFilters.

(** [filters?.field] on an optional filter object. *)
Definition opt_field {F A : Type} (filters : option F) (field : F -> option A) : option A :=
  match filters with
  | Some f => field f
  | None => None
  end.

(** [filters?.field] for a field of a string-literal type, as the string it
    is at run time. *)
Definition opt_enum {F A : Type} (filters : option F) (field : F -> option A)
    (str : A -> string) : option string :=
  option_map str (opt_field filters field).

(** The response envelope [ApiResponse<T>] as an object literal. *)
Definition ApiResponse (success : bool) (data error : JsValue) : JsValue :=
  JObj [("success", JBool success); ("data", data); ("error", error)].

(** A body has the declared envelope shape when it is an object whose
    [success] is a boolean, whose [data] is there (null included) and
    whose [error] is a string or null. *)
Definition conforms_to_envelope (v : JsValue) : bool :=
  match v with
  | JObj fields =>
      match lookup "success" fields, lookup "data" fields, lookup "error" fields with
      | Some (JBool _), Some d, Some (JStr _ | JNull) =>
          match d with JUndefined => false | _ => true end
      | _, _, _ => false
      end
  | _ => false
  end.

(** The envelope invariant of the data model: [success] is true exactly
    when [data] is present and [error] is absent. *)
Definition envelope_invariant (v : JsValue) : bool :=
  Bool.eqb
    (match get "success" v with JBool true => true | _ => false end)
    (negb (is_nullish (get "data" v)) && is_nullish (get "error" v)).

(** *** Mutations *)

Module CreateAccountInput.
Record t : Type := mk {
  linked_account_id : string;
  account_type : CradleAccountType.t
}.
(** The object an input is at run time. *)
Definition js (i : t) : JsValue :=
  JObj [("linked_account_id", JStr (linked_account_id i));
        ("account_type", JStr (CradleAccountType.str (account_type i)))].
End CreateAccountInput.

Module PlaceOrderResult.
Record t : Type := mk {
  id : string;
  status : OrderFillStatus.t;
  bid_amount_filled : string;
  ask_amount_filled : string;
  matched_trades : list string
}.
Definition js (r : t) : JsValue :=
  JObj [("id", JStr (id r));
        ("status", JStr (OrderFillStatus.str (status r)));
        ("bid_amount_filled", JStr (bid_amount_filled r));
        ("ask_amount_filled", JStr (ask_amount_filled r));
        ("matched_trades", JArr (map JStr (matched_trades r)))].
End PlaceOrderResult.

(** A value of the two-level tagged union: one outer key holding an object
    with one inner key holding the payload. *)
Definition tagged (outer inner : string) (payload : JsValue) : JsValue :=
  JObj [(outer, JObj [(inner, payload)])].

(** The closed union [MutationResponse], one constructor per member, named
    after the inner tag and carrying the declared payload. *)
Module MutationResponse.
Inductive t : Type :=
| CreateAccount (id : string)
| UpdateAccountStatus
| CreateWallet (id : string)
| CreateAsset (id : string)
| CreateExistingAsset (id : string)
| CreateMarket (id : string)
| UpdateMarketStatus
| PlaceOrder (result : PlaceOrderResult.t)
| CancelOrder
| AddRecord (id : string)
| CreateLendingPool (id : string)
| SupplyLiquidity (id : string)
| WithdrawLiquidity (id : string)
| BorrowAsset (id : string)
| RepayBorrow
| CreateRepayment (id : string)
| CreateLiquidation (id : string).

Definition outer_tag (r : t) : string :=
  match r with
  | CreateAccount _ | UpdateAccountStatus | CreateWallet _ => "Accounts"
  | CreateAsset _ | CreateExistingAsset _ => "Assets"
  | CreateMarket _ | UpdateMarketStatus => "Markets"
  | PlaceOrder _ | CancelOrder => "OrderBook"
  | AddRecord _ => "MarketTimeSeries"
  | CreateLendingPool _ | SupplyLiquidity _ | WithdrawLiquidity _
  | BorrowAsset _ | RepayBorrow => "Pool"
  | CreateRepayment _ | CreateLiquidation _ => "Loans"
  end.

Definition inner_tag (r : t) : string :=
  match r with
  | CreateAccount _ => "CreateAccount"
  | UpdateAccountStatus => "UpdateAccountStatus"
  | CreateWallet _ => "CreateWallet"
  | CreateAsset _ => "CreateAsset"
  | CreateExistingAsset _ => "CreateExistingAsset"
  | CreateMarket _ => "CreateMarket"
  | UpdateMarketStatus => "UpdateMarketStatus"
  | PlaceOrder _ => "PlaceOrder"
  | CancelOrder => "CancelOrder"
  | AddRecord _ => "AddRecord"
  | CreateLendingPool _ => "CreateLendingPool"
  | SupplyLiquidity _ => "SupplyLiquidity"
  | WithdrawLiquidity _ => "WithdrawLiquidity"
  | BorrowAsset _ => "BorrowAsset"
  | RepayBorrow => "RepayBorrow"
  | CreateRepayment _ => "CreateRepayment"
  | CreateLiquidation _ => "CreateLiquidation"
  end.

Definition payload (r : t) : JsValue :=
  match r with
  | CreateAccount id | CreateWallet id | CreateAsset id
  | CreateExistingAsset id | CreateMarket id | AddRecord id
  | CreateLendingPool id | SupplyLiquidity id | WithdrawLiquidity id
  | BorrowAsset id | CreateRepayment id | CreateLiquidation id => JStr id
  | UpdateAccountStatus | UpdateMarketStatus | CancelOrder | RepayBorrow => JNull
  | PlaceOrder result => PlaceOrderResult.js result
  end.

(** The object a response is at run time. *)
Definition js (r : t) : JsValue :=
  tagged (outer_tag r) (inner_tag r) (payload r).
End MutationResponse.

(** ** Type guard helpers *)

Module MutationResponseHelpers.

Definition isCreateAccount (response : JsValue) : option bool :=
  and_then (has_key "Accounts" response)
           (has_key "CreateAccount" (get "Accounts" response)).
Definition isUpdateAccountStatus (response : JsValue) : option bool :=
  and_then (has_key "Accounts" response)
           (has_key "UpdateAccountStatus" (get "Accounts" response)).
Definition isCreateWallet (response : JsValue) : option bool :=
  and_then (has_key "Accounts" response)
           (has_key "CreateWallet" (get "Accounts" response)).

Definition isCreateAsset (response : JsValue) : option bool :=
  and_then (has_key "Assets" response)
           (has_key "CreateAsset" (get "Assets" response)).
Definition isCreateExistingAsset (response : JsValue) : option bool :=
  and_then (has_key "Assets" response)
           (has_key "CreateExistingAsset" (get "Assets" response)).

Definition isCreateMarket (response : JsValue) : option bool :=
  and_then (has_key "Markets" response)
           (has_key "CreateMarket" (get "Markets" response)).
Definition isUpdateMarketStatus (response : JsValue) : option bool :=
  and_then (has_key "Markets" response)
           (has_key "UpdateMarketStatus" (get "Markets" response)).

Definition isPlaceOrder (response : JsValue) : option bool :=
  and_then (has_key "OrderBook" response)
           (has_key "PlaceOrder" (get "OrderBook" response)).
Definition isCancelOrder (response : JsValue) : option bool :=
  and_then (has_key "OrderBook" response)
           (has_key "CancelOrder" (get "OrderBook" response)).

Definition isAddRecord (response : JsValue) : option bool :=
  and_then (has_key "MarketTimeSeries" response)
           (has_key "AddRecord" (get "MarketTimeSeries" response)).

Definition isCreateLendingPool (response : JsValue) : option bool :=
  and_then (has_key "Pool" response)
           (has_key "CreateLendingPool" (get "Pool" response)).
Definition isSupplyLiquidity (response : JsValue) : option bool :=
  and_then (has_key "Pool" response)
           (has_key "SupplyLiquidity" (get "Pool" response)).
Definition isWithdrawLiquidity (response : JsValue) : option bool :=
  and_then (has_key "Pool" response)
           (has_key "WithdrawLiquidity" (get "Pool" response)).
Definition isBorrowAsset (response : JsValue) : option bool :=
  and_then (has_key "Pool" response)
           (has_key "BorrowAsset" (get "Pool" response)).
Definition isRepayBorrow (response : JsValue) : option bool :=
  and_then (has_key "Pool" response)
           (has_key "RepayBorrow" (get "Pool" response)).

Definition isCreateRepayment (response : JsValue) : option bool :=
  and_then (has_key "Loans" response)
           (has_key "CreateRepayment" (get "Loans" response)).
Definition isCreateLiquidation (response : JsValue) : option bool :=
  and_then (has_key "Loans" response)
           (has_key "CreateLiquidation" (get "Loans" response)).

(** The members of the helper object, by name. *)
Definition members : list (string * (JsValue -> option bool)) :=
  [("isCreateAccount", isCreateAccount);
   ("isUpdateAccountStatus", isUpdateAccountStatus);
   ("isCreateWallet", isCreateWallet);
   ("isCreateAsset", isCreateAsset);
   ("isCreateExistingAsset", isCreateExistingAsset);
   ("isCreateMarket", isCreateMarket);
   ("isUpdateMarketStatus", isUpdateMarketStatus);
   ("isPlaceOrder", isPlaceOrder);
   ("isCancelOrder", isCancelOrder);
   ("isAddRecord", isAddRecord);
   ("isCreateLendingPool", isCreateLendingPool);
   ("isSupplyLiquidity", isSupplyLiquidity);
   ("isWithdrawLiquidity", isWithdrawLiquidity);
   ("isBorrowAsset", isBorrowAsset);
   ("isRepayBorrow", isRepayBorrow);
   ("isCreateRepayment", isCreateRepayment);
   ("isCreateLiquidation", isCreateLiquidation)].

End MutationResponseHelpers.

(** ** The HTTP library (axios) *)

Inductive Method : Type := GET | POST.

Definition Headers : Type := list (string * string).

(** [{...headers, [name]: value}] *)
Fixpoint set_header (name value : string) (headers : Headers) : Headers :=
  match headers with
  | [] => [(name, value)]
  | (n, v) :: rest =>
      if n =? name then (n, value) :: rest
      else (n, v) :: set_header name value rest
  end.

(** Per-request headers laid over the defaults of an instance. *)
Definition merge_headers (defaults overrides : Headers) : Headers :=
  fold_left (fun acc h => set_header (fst h) (snd h) acc) overrides defaults.

Module AxiosRequestConfig.
Record t : Type := mk {
  method : Method;
  url : string;
  data : JsValue;
  headers : Headers
}.
End AxiosRequestConfig.

(** What [axios.create] keeps: the defaults of every request made through
    the instance. *)
Module AxiosInstance.
Record t : Type := mk {
  baseURL : string;
  timeout : Z;
  headers : Headers
}.
End AxiosInstance.

Module AxiosResponse.
Record t : Type := mk {
  status : Z;
  data : JsValue
}.
End AxiosResponse.

(** One HTTP call as it leaves the client. *)
Module HttpCall.
Record t : Type := mk {
  method : Method;
  baseURL : option string;
  url : string;
  headers : Headers;
  timeout : Z;
  data : JsValue
}.
End HttpCall.

(** What a [catch] clause can receive: an axios error (with the response
    when the server answered), any other [Error], or any other value. *)
Inductive Thrown : Type :=
| AxiosError (message : string) (response : option AxiosResponse.t)
| NativeError (message : string)
| OtherThrown (v : JsValue).

Inductive Outcome : Type :=
| Fulfilled (response : AxiosResponse.t)
| Rejected (error : Thrown).

(** The world outside the client: how an HTTP call ends, given the calls
    made before it. *)
Definition Network : Type := list HttpCall.t -> HttpCall.t -> Outcome.

(** ** Asynchronous computations *)

Inductive Completion (A : Type) : Type :=
| Returned (a : A)
| Threw (e : Thrown).
Arguments Returned {A} a.
Arguments Threw {A} e.

(** An async function: from the log of the calls issued so far to how it
    completes and the log after it. *)
Definition Async (A : Type) : Type :=
  list HttpCall.t -> Completion A * list HttpCall.t.

Definition ret {A : Type} (a : A) : Async A :=
  fun log => (Returned a, log).

Definition throw {A : Type} (e : Thrown) : Async A :=
  fun log => (Threw e, log).

Definition bind {A B : Type} (m : Async A) (k : A -> Async B) : Async B :=
  fun log =>
    match m log with
    | (Returned a, log') => k a log'
    | (Threw e, log') => (Threw e, log')
    end.

Definition try_catch {A : Type} (body : Async A) (handler : Thrown -> Async A) : Async A :=
  fun log =>
    match body log with
    | (Returned a, log') => (Returned a, log')
    | (Threw e, log') => handler e log'
    end.

Notation "x <- m ;; k" := (bind m (fun x => k))
  (at level 61, m at next level, right associativity).

(** Run an async function from an empty log. *)
Definition run {A : Type} (m : Async A) : Completion A * list HttpCall.t := m [].

Section Axios.

Variable network : Network.

(** Issue one call: it is logged, and the promise settles as the network
    decides. *)
Definition perform (call : HttpCall.t) : Async AxiosResponse.t :=
  fun log =>
    (match network log call with
     | Fulfilled response => Returned response
     | Rejected error => Threw error
     end, (log ++ [call])%list).

(** [instance.request(config)]: the instance's defaults, with the
    request's own headers laid over them.  The response interceptor the
    constructor installs passes responses through and re-rejects errors
    unchanged, so it does not show here. *)
Definition instance_request (instance : AxiosInstance.t)
    (config : AxiosRequestConfig.t) : Async AxiosResponse.t :=
  perform (HttpCall.mk
             (AxiosRequestConfig.method config)
             (Some (AxiosInstance.baseURL instance))
             (AxiosRequestConfig.url config)
             (merge_headers (AxiosInstance.headers instance)
                            (AxiosRequestConfig.headers config))
             (AxiosInstance.timeout instance)
             (AxiosRequestConfig.data config)).

(** [axios.get(url)] on the library's global instance: no base URL, none
    of the client's headers, the library's default timeout of 0. *)
Definition axios_get (url : string) : Async AxiosResponse.t :=
  perform (HttpCall.mk GET None url [] 0%Z JUndefined).

End Axios.

(** ** The client *)

Module CradleApiConfig.
Record t : Type := mk {
  baseUrl : option string;
  apiKey : string;
  timeout : option Z
}.
End CradleApiConfig.

Module CradleApiClient.

Record t : Type := mk { axiosInstance : AxiosInstance.t }.

(** [config.baseUrl || 'http://localhost:3000'] *)
Definition string_or (field : option string) (default : string) : string :=
  match field with
  | Some s => if truthy (JStr s) then s else default
  | None => default
  end.

(** [config.timeout || 30000] *)
Definition number_or (field : option Z) (default : Z) : Z :=
  match field with
  | Some n => if truthy (JNum n) then n else default
  | None => default
  end.

Definition constructor (config : CradleApiConfig.t) : t :=
  let baseUrl := string_or (CradleApiConfig.baseUrl config) "http://localhost:3000" in
  let timeout := number_or (CradleApiConfig.timeout config) 30000%Z in
  mk (AxiosInstance.mk baseUrl timeout
        [("Content-Type", "application/json");
         ("Authorization", "Bearer " ++ CradleApiConfig.apiKey config);
         ("ngrok-skip-browser-warning", "6969")]).

(** [error.response?.data] *)
Definition response_data (response : option AxiosResponse.t) : JsValue :=
  match response with
  | Some r => AxiosResponse.data r
  | None => JUndefined
  end.

(** *** Query strings of the filtered listings *)

(** [if (cond) params.append(name, value(cond))] *)
Definition append_when (cond : option string) (name : string)
    (value : string -> string) (params : Url.URLSearchParams) : Url.URLSearchParams :=
  match cond with
  | Some v => if truthy (JStr v) then Url.append params name (value v) else params
  | None => params
  end.

Definition same (v : string) : string := v.

Definition getMarkets_params (filters : option MarketFilters.t) : Url.URLSearchParams :=
  let params := [] in
  let params := append_when (opt_enum filters MarketFilters.market_type MarketType.str)
                            "market_type" same params in
  let params := append_when (opt_enum filters MarketFilters.status MarketStatus.str)
                            "status" same params in
  let params := append_when (opt_enum filters MarketFilters.regulation MarketRegulation.str)
                            "regulation" same params in
  params.

Definition getOrders_params (filters : option OrderFilters.t) : Url.URLSearchParams :=
  let params := [] in
  let params := append_when (opt_field filters OrderFilters.wallet) "wallet" same params in
  let params := append_when (opt_field filters OrderFilters.market_id) "market_id" same params in
  let params := append_when (opt_enum filters OrderFilters.status OrderStatus.str)
                            "status" same params in
  let params := append_when (opt_enum filters OrderFilters.order_type OrderType.str)
                            "order_type" same params in
  let params := append_when (opt_field filters OrderFilters.from_date) "from_date" same params in
  let params := append_when (opt_field filters OrderFilters.to_date) "to_date" same params in
  params.

Definition getTimeSeriesRecords_params (filters : option TimeSeriesFilters.t)
    : Url.URLSearchParams :=
  let params := [] in
  let params := append_when (opt_field filters TimeSeriesFilters.market_id) "market" same params in
  let params := append_when (opt_field filters TimeSeriesFilters.asset) "asset" same params in
  let params := append_when (opt_enum filters TimeSeriesFilters.interval TimeSeriesInterval.str)
                            "interval" same params in
  let params := append_when (opt_field filters TimeSeriesFilters.start_time)
                            "duration_sec" (fun _ => "") params in
  let params := append_when (opt_field filters TimeSeriesFilters.data_provider)
                            "data_provider" same params in
  params.

(** [query ? `${base}?${query}` : base] *)
Definition with_query (base : string) (params : Url.URLSearchParams) : string :=
  let query := Url.toString params in
  if truthy (JStr query) then base ++ "?" ++ query else base.

Definition getMarkets_path (filters : option MarketFilters.t) : string :=
  with_query "/markets" (getMarkets_params filters).

Definition getOrders_path (filters : option OrderFilters.t) : string :=
  with_query "/orders" (getOrders_params filters).

Definition getTimeSeriesRecords_path (filters : option TimeSeriesFilters.t) : string :=
  with_query "/time-series" (getTimeSeriesRecords_params filters).

Section Methods.

Variable network : Network.
Variable this : t.

(** *** The transport adapter *)

Definition request (method : Method) (path : string) (body : JsValue)
    (requiresAuth : bool) : Async JsValue :=
  try_catch
    (let config := AxiosRequestConfig.mk method path body [] in
     let config :=
       if negb requiresAuth
       then AxiosRequestConfig.mk method path body
              (set_header "Authorization" "" (AxiosRequestConfig.headers config))
       else config in
     response <- instance_request network (axiosInstance this) config ;;
     ret (AxiosResponse.data response))
    (fun error =>
       match error with
       | AxiosError message response =>
           if truthy (response_data response)
           then ret (response_data response)
           else ret (ApiResponse false JNull
                       (or_else (JStr message) (JStr "Request failed")))
       | NativeError message =>
           ret (ApiResponse false JNull (JStr message))
       | OtherThrown _ =>
           ret (ApiResponse false JNull (JStr "Unknown error occurred"))
       end).

(** *** Health check *)

Definition health : Async JsValue :=
  try_catch
    (response <- axios_get network
                   (AxiosInstance.baseURL (axiosInstance this) ++ "/health") ;;
     ret (AxiosResponse.data response))
    (fun _ => throw (NativeError "Health check failed")).

(** *** Read endpoints *)

Definition getAccount (id : string) : Async JsValue :=
  request GET ("/accounts/" ++ id) JUndefined true.

Definition getAccountByLinkedId (linkedId : string) : Async JsValue :=
  request GET ("/accounts/linked/" ++ linkedId) JUndefined true.

Definition getAccountWallets (accountId : string) : Async JsValue :=
  request GET ("/accounts/" ++ accountId ++ "/wallets") JUndefined true.

Definition getWallet (id : string) : Async JsValue :=
  request GET ("/wallets/" ++ id) JUndefined true.

Definition getWalletByAccountId (accountId : string) : Async JsValue :=
  request GET ("/accounts/" ++ accountId ++ "/wallets") JUndefined true.

Definition getMarket (id : string) : Async JsValue :=
  request GET ("/markets/" ++ id) JUndefined true.

Definition getMarkets (filters : option MarketFilters.t) : Async JsValue :=
  request GET (getMarkets_path filters) JUndefined true.

Definition getOrder (id : string) : Async JsValue :=
  request GET ("/orders/" ++ id) JUndefined true.

Definition getOrders (filters : option OrderFilters.t) : Async JsValue :=
  request GET (getOrders_path filters) JUndefined true.

Definition getTimeSeriesRecord (id : string) : Async JsValue :=
  request GET ("/time-series/" ++ id) JUndefined true.

Definition getTimeSeriesRecords (filters : option TimeSeriesFilters.t) : Async JsValue :=
  request GET (getTimeSeriesRecords_path filters) JUndefined true.

(** *** The other read endpoints *)

Definition getAsset (id : string) : Async JsValue :=
  request GET ("/assets/" ++ id) JUndefined true.

Definition getAssets : Async JsValue :=
  request GET "/assets" JUndefined true.

Definition getAssetByToken (token : string) : Async JsValue :=
  request GET ("/assets/token/" ++ token) JUndefined true.

Definition getAssetByManager (manager : string) : Async JsValue :=
  request GET ("/assets/manager/" ++ manager) JUndefined true.

Definition getLendingPool (id : string) : Async JsValue :=
  request GET ("/pools/" ++ id) JUndefined true.

Definition getLendingPools : Async JsValue :=
  let path := "/pools" in
  request GET path JUndefined true.

Definition getLendingTransactions (poolId : string) : Async JsValue :=
  request GET ("/pools/" ++ poolId ++ "/transactions") JUndefined true.

Definition getLendingTransactionsByWallet (walletId : string) : Async JsValue :=
  request GET ("/lending-transactions/wallet/" ++ walletId) JUndefined true.

Definition getLoans (poolId : string) : Async JsValue :=
  request GET ("/lending-pools/" ++ poolId ++ "/loans") JUndefined true.

Definition getLoansByWallet (walletId : string) : Async JsValue :=
  request GET ("/loans/wallet/" ++ walletId) JUndefined true.

Definition getLoan (id : string) : Async JsValue :=
  request GET ("/loan/" ++ id) JUndefined true.

Definition getLendingPoolByName_path (name : string) : string :=
  "/pools/name/" ++ Uri.encodeURIComponent name.

(** The path is built before [request] is entered: on a name with a
    lone surrogate [encodeURIComponent] throws its URIError there, the
    method rejects and no call is issued. *)
Definition getLendingPoolByName (name : string) : Async JsValue :=
  if Uri.well_formed name
  then request GET (getLendingPoolByName_path name) JUndefined true
  else throw (NativeError "URI malformed").

Definition getLendingPoolByAddress (address : string) : Async JsValue :=
  request GET ("/pools/address/" ++ address) JUndefined true.

Definition getPoolSnapshot (poolId : string) : Async JsValue :=
  request GET ("/pools/" ++ poolId ++ "/snapshot") JUndefined true.

Definition getAllLoans : Async JsValue :=
  request GET "/loans" JUndefined true.

Definition getLoansByPool (poolId : string) : Async JsValue :=
  request GET ("/loans/pool/" ++ poolId) JUndefined true.

Definition getLoansByStatus (status : LoanStatus.t) : Async JsValue :=
  request GET ("/loans/status/" ++ LoanStatus.str status) JUndefined true.

Definition getAllRepayments : Async JsValue :=
  request GET "/loan-repayments" JUndefined true.

Definition getRepaymentsByLoan (loanId : string) : Async JsValue :=
  request GET ("/loan-repayments/loan/" ++ loanId) JUndefined true.

Definition getAllLiquidations : Async JsValue :=
  request GET "/loan-liquidations" JUndefined true.

Definition getLiquidationsByLoan (loanId : string) : Async JsValue :=
  request GET ("/loan-liquidations/loan/" ++ loanId) JUndefined true.

Definition getPoolInterestRates (poolId : string) : Async JsValue :=
  request GET ("/pools/" ++ poolId ++ "/interest-rates") JUndefined true.

Definition getPoolCollateralInfo (poolId : string) : Async JsValue :=
  request GET ("/pools/" ++ poolId ++ "/collateral-info") JUndefined true.

Definition getPoolStatistics (poolId : string) : Async JsValue :=
  request GET ("/pools/" ++ poolId ++ "/pool-stats") JUndefined true.

Definition getUserPositions (poolId walletId : string) : Async JsValue :=
  request GET ("/pools/" ++ poolId ++ "/user-positions/" ++ walletId)
    JUndefined true.

(** *** Mutations *)

Definition airdrop (airdropArgs : JsValue) : Async JsValue :=
  request POST "/faucet" airdropArgs true.

Definition processMutation (action : JsValue) : Async JsValue :=
  request POST "/process" action true.

(** The convenience wrappers.  An input of an interface type is the
    object it is at run time. *)

Definition createAccount (input : JsValue) : Async JsValue :=
  processMutation (JObj [("Accounts", JObj [("CreateAccount", input)])]).

Definition updateAccountStatus (input : JsValue) : Async JsValue :=
  processMutation (JObj [("Accounts", JObj [("UpdateAccountStatus", input)])]).

Definition createWallet (input : JsValue) : Async JsValue :=
  processMutation (JObj [("Accounts", JObj [("CreateWallet", input)])]).

Definition createAsset (input : JsValue) : Async JsValue :=
  processMutation (JObj [("Assets", JObj [("CreateAsset", input)])]).

Definition createExistingAsset (assetId : string) : Async JsValue :=
  processMutation (JObj [("Assets", JObj [("CreateExistingAsset", JStr assetId)])]).

Definition createMarket (input : JsValue) : Async JsValue :=
  processMutation (JObj [("Markets", JObj [("CreateMarket", input)])]).

Definition updateMarketStatus (input : JsValue) : Async JsValue :=
  processMutation (JObj [("Markets", JObj [("UpdateMarketStatus", input)])]).

Definition placeOrder (input : JsValue) : Async JsValue :=
  processMutation (JObj [("OrderBook", JObj [("PlaceOrder", input)])]).

Definition cancelOrder (orderId : string) : Async JsValue :=
  processMutation (JObj [("OrderBook", JObj [("CancelOrder", JStr orderId)])]).

Definition addTimeSeriesRecord (input : JsValue) : Async JsValue :=
  processMutation (JObj [("MarketTimeSeries", JObj [("AddRecord", input)])]).

Definition createLendingPool (input : JsValue) : Async JsValue :=
  processMutation (JObj [("Pool", JObj [("CreateLendingPool", input)])]).

Definition supplyLiquidity (input : JsValue) : Async JsValue :=
  processMutation (JObj [("Pool", JObj [("SupplyLiquidity", input)])]).

Definition withdrawLiquidity (input : JsValue) : Async JsValue :=
  processMutation (JObj [("Pool", JObj [("WithdrawLiquidity", input)])]).

Definition borrowAsset (input : JsValue) : Async JsValue :=
  processMutation (JObj [("Pool", JObj [("BorrowAsset", input)])]).

Definition repayBorrow (input : JsValue) : Async JsValue :=
  processMutation (JObj [("Pool", JObj [("RepayBorrow", input)])]).

End Methods.

End CradleApiClient.

(** ** The example scripts (cradle-client-ts/example.ts) *)

Module Example.

(** What is handed to the console.  A template literal is kept as its
    pieces; the text printed has each interpolated value converted to a
    string. *)
Inductive Piece : Type :=
| Text (s : string)
| Interpolated (v : JsValue).

Inductive ConsoleArg : Type :=
| AText (s : string)
| ATemplate (pieces : list Piece)
| AValue (v : JsValue)
| AThrown (e : Thrown).

Inductive ConsoleLine : Type :=
| Log (args : list ConsoleArg)
| Error (args : list ConsoleArg).

(** A script: an async function that also writes to the console. *)
Definition Script (A : Type) : Type :=
  list ConsoleLine -> list HttpCall.t ->
  Completion A * list ConsoleLine * list HttpCall.t.

Definition pure {A : Type} (a : A) : Script A :=
  fun console log => (Returned a, console, log).

Definition raise {A : Type} (e : Thrown) : Script A :=
  fun console log => (Threw e, console, log).

Definition seq {A B : Type} (m : Script A) (k : A -> Script B) : Script B :=
  fun console log =>
    match m console log with
    | (Returned a, console', log') => k a console' log'
    | (Threw e, console', log') => (Threw e, console', log')
    end.

Definition attempt {A : Type} (body : Script A) (handler : Thrown -> Script A)
    : Script A :=
  fun console log =>
    match body console log with
    | (Returned a, console', log') => (Returned a, console', log')
    | (Threw e, console', log') => handler e console' log'
    end.

(** [await] of a client method. *)
Definition await {A : Type} (m : Async A) : Script A :=
  fun console log =>
    match m log with
    | (completion, log') => (completion, console, log')
    end.

Definition console_log (args : list ConsoleArg) : Script unit :=
  fun console log => (Returned tt, (console ++ [Log args])%list, log).

Definition console_error (args : list ConsoleArg) : Script unit :=
  fun console log => (Returned tt, (console ++ [Error args])%list, log).

Notation "x <~ m ;; k" := (seq m (fun x => k))
  (at level 61, m at next level, right associativity).
Notation "m ;;; k" := (seq m (fun _ => k))
  (at level 61, right associativity).

(** Property read [v.k]: a TypeError when [v] is null or undefined, the
    own property of an object otherwise (none of the keys the scripts
    read is inherited, or exists on a string, a number, a boolean or an
    array).  The wording of a TypeError is the engine's own; the scripts
    only ever print it. *)
Definition prop (k : string) (v : JsValue) : Script JsValue :=
  match v with
  | JNull =>
      raise (NativeError ("Cannot read properties of null (reading '" ++ k ++ "')"))
  | JUndefined =>
      raise (NativeError ("Cannot read properties of undefined (reading '" ++ k ++ "')"))
  | _ => pure (get k v)
  end.

(** A call of a type guard helper: a TypeError when the [in] operator
    meets a value that is not an object. *)
Definition guard (answer : option bool) : Script bool :=
  match answer with
  | Some b => pure b
  | None => raise (NativeError "Cannot use 'in' operator to search for a key in a value that is not an object")
  end.

(** The number of UTF-16 code units of a string given by its UTF-8
    bytes: one for each byte that starts a character, and one more for
    each character of four bytes. *)
Fixpoint utf16_length (s : string) : Z :=
  match s with
  | "" => 0%Z
  | String c rest =>
      let n := nat_of_ascii c in
      ((if ((n <? 128) || (192 <=? n))%nat then 1 else 0)
       + (if (240 <=? n)%nat then 1 else 0)
       + utf16_length rest)%Z
  end.

(** [v.length] of a value that is not null or undefined. *)
Definition length_of (v : JsValue) : JsValue :=
  match v with
  | JArr items => JNum (Z.of_nat (List.length items))
  | JStr s => JNum (utf16_length s)
  | _ => get "length" v
  end.

(** [v === 0] *)
Definition is_zero (v : JsValue) : bool :=
  match v with
  | JNum n => (n =? 0)%Z
  | _ => false
  end.

(** [v[0]] of a value that is not null or undefined.  Of a string it is
    the first code unit, again a string, given here by the first byte;
    the script reads only properties off it, and a string has none of
    those it reads. *)
Definition first_of (v : JsValue) : JsValue :=
  match v with
  | JArr items => nth 0 items JUndefined
  | JStr (String c _) => JStr (String c "")
  | JStr "" => JUndefined
  | _ => get "0" v
  end.

Section Scripts.

Variable network : Network.

(** [process.env.API_SECRET_KEY] *)
Variable API_SECRET_KEY : option string.

Definition client : CradleApiClient.t :=
  CradleApiClient.constructor
    (CradleApiConfig.mk (Some "http://localhost:3000")
       (CradleApiClient.string_or API_SECRET_KEY "your-secret-key")
       (Some 30000%Z)).

Definition checkHealth : Script unit :=
  attempt
    (health <~ await (CradleApiClient.health network client) ;;
     console_log [AText "API Health:"; AValue health])
    (fun error => console_error [AText "Health check failed:"; AThrown error]).

Definition demonstrateErrorHandling : Script unit :=
  response <~ await (CradleApiClient.getAccount network client "invalid-uuid") ;;
  success <~ prop "success" response ;;
  (if negb (truthy success)
   then error <~ prop "error" response ;;
        console_error [AText "Error occurred:"; AValue error]
   else pure tt) ;;;
  attempt
    (result <~ await (CradleApiClient.getMarkets network client None) ;;
     success <~ prop "success" result ;;
     if truthy success
     then data <~ prop "data" result ;;
          console_log [AText "Markets:"; AValue data]
     else error <~ prop "error" result ;;
          console_error [AText "API error:"; AValue error])
    (fun error => console_error [AText "Network error:"; AThrown error]).

(** [!response.success || !response.data] *)
Definition failed (response : JsValue) : Script bool :=
  success <~ prop "success" response ;;
  if negb (truthy success) then pure true
  else data <~ prop "data" response ;;
       pure (negb (truthy data)).

(** [response.success && response.data], as a condition *)
Definition succeeded (response : JsValue) : Script bool :=
  success <~ prop "success" response ;;
  if truthy success
  then data <~ prop "data" response ;;
       pure (truthy data)
  else pure false.

Definition complexWorkflow : Script unit :=
  console_log [AText "Starting complex trading workflow..."] ;;;
  console_log [AText "Step 1: Creating account..."] ;;;
  accountResponse <~ await (CradleApiClient.createAccount network client
                              (JObj [("linked_account_id", JStr "trader-001");
                                     ("account_type", JStr "retail")])) ;;
  account_failed <~ failed accountResponse ;;
  if account_failed
  then console_error [AText "Failed to create account"]
  else
  data <~ prop "data" accountResponse ;;
  is_account <~ guard (MutationResponseHelpers.isCreateAccount data) ;;
  if negb is_account
  then console_error [AText "Unexpected response type"]
  else
  accounts <~ prop "Accounts" data ;;
  accountId <~ prop "CreateAccount" accounts ;;
  console_log [AText "Step 2: Creating wallet..."] ;;;
  walletResponse <~ await (CradleApiClient.createWallet network client
                             (JObj [("cradle_account_id", accountId);
                                    ("address", JStr "0.0.999999");
                                    ("contract_id", JStr "0xabcdef123456")])) ;;
  wallet_failed <~ failed walletResponse ;;
  if wallet_failed
  then console_error [AText "Failed to create wallet"]
  else
  data <~ prop "data" walletResponse ;;
  is_wallet <~ guard (MutationResponseHelpers.isCreateWallet data) ;;
  if negb is_wallet
  then console_error [AText "Unexpected response type"]
  else
  accounts <~ prop "Accounts" data ;;
  walletId <~ prop "CreateWallet" accounts ;;
  console_log [AText "Step 3: Fetching markets..."] ;;;
  marketsResponse <~ await (CradleApiClient.getMarkets network client
                              (Some (MarketFilters.mk (Some MarketType.spot)
                                       (Some MarketStatus.active) None))) ;;
  markets_failed <~ failed marketsResponse ;;
  markets <~ (if markets_failed then pure JUndefined
              else prop "data" marketsResponse) ;;
  if markets_failed || is_zero (length_of markets)
  then console_error [AText "No active markets available"]
  else
  let market := first_of markets in
  name <~ prop "name" market ;;
  console_log [ATemplate [Text "Found market: "; Interpolated name]] ;;;
  console_log [AText "Step 4: Placing order..."] ;;;
  market_id <~ prop "id" market ;;
  asset_one <~ prop "asset_one" market ;;
  asset_two <~ prop "asset_two" market ;;
  orderResponse <~ await (CradleApiClient.placeOrder network client
                            (JObj [("wallet", walletId);
                                   ("market_id", market_id);
                                   ("bid_asset", asset_one);
                                   ("ask_asset", asset_two);
                                   ("bid_amount", JStr "100.00");
                                   ("ask_amount", JStr "50.00");
                                   ("price", JStr "2.00");
                                   ("mode", JStr "good-till-cancel");
                                   ("order_type", JStr "limit")])) ;;
  order_ok <~ succeeded orderResponse ;;
  (if order_ok
   then data <~ prop "data" orderResponse ;;
        is_order <~ guard (MutationResponseHelpers.isPlaceOrder data) ;;
        if is_order
        then orderBook <~ prop "OrderBook" data ;;
             orderResult <~ prop "PlaceOrder" orderBook ;;
             id <~ prop "id" orderResult ;;
             console_log [ATemplate [Text "Order placed successfully: ";
                                     Interpolated id]] ;;;
             status <~ prop "status" orderResult ;;
             console_log [ATemplate [Text "Order status: "; Interpolated status]] ;;;
             bid <~ prop "bid_amount_filled" orderResult ;;
             ask <~ prop "ask_amount_filled" orderResult ;;
             console_log [ATemplate [Text "Filled: "; Interpolated bid; Text "/";
                                     Interpolated ask]]
        else pure tt
   else pure tt) ;;;
  console_log [AText "Workflow completed successfully!"].

Definition main : Script unit :=
  console_log [AText ("=== Cradle API Client Examples ===" ++ String "010" "")] ;;;
  checkHealth.

End Scripts.

(** Run a script from an empty console and an empty log. *)
Definition start {A : Type} (m : Script A)
    : Completion A * list ConsoleLine * list HttpCall.t :=
  m [] [].

End Example.

(** ** Vocabulary of the statements *)

Import CradleApiClient.

(** The one call [request] hands to the network. *)
Definition request_call (this : CradleApiClient.t) (method : Method) (path : string)
    (body : JsValue) (requiresAuth : bool) : HttpCall.t :=
  let instance := axiosInstance this in
  HttpCall.mk method (Some (AxiosInstance.baseURL instance)) path
    (if requiresAuth then AxiosInstance.headers instance
     else set_header "Authorization" "" (AxiosInstance.headers instance))
    (AxiosInstance.timeout instance) body.

(** The call [health] hands to the network. *)
Definition health_call (this : CradleApiClient.t) : HttpCall.t :=
  HttpCall.mk GET None (AxiosInstance.baseURL (axiosInstance this) ++ "/health")
    [] 0%Z JUndefined.

(** A failure carries a usable response body when it is an axios error
    whose response has a truthy [data]. *)
Definition usable_body (e : Thrown) : bool :=
  match e with
  | AxiosError _ response => truthy (response_data response)
  | _ => false
  end.

(** The message of the underlying failure, when it has one. *)
Definition failure_message (e : Thrown) : option string :=
  match e with
  | AxiosError message _ | NativeError message => Some message
  | OtherThrown _ => None
  end.

(** A call that completed with a status and a body: resolved, or rejected
    by an axios error that carries the response. *)
Definition completed_with (o : Outcome) : option (Z * JsValue) :=
  match o with
  | Fulfilled r => Some (AxiosResponse.status r, AxiosResponse.data r)
  | Rejected (AxiosError _ (Some r)) =>
      Some (AxiosResponse.status r, AxiosResponse.data r)
  | Rejected _ => None
  end.

(** A backend that answers every call with the same status and body, and a
    network on which every call fails the same way. *)
Definition backend_returning (status : Z) (body : JsValue) : Network :=
  fun _ _ => Fulfilled (AxiosResponse.mk status body).

Definition backend_rejecting (status : Z) (message : string) (body : JsValue) : Network :=
  fun _ _ => Rejected (AxiosError message (Some (AxiosResponse.mk status body))).

Definition failing_with (e : Thrown) : Network :=
  fun _ _ => Rejected e.

Definition local_client : CradleApiClient.t :=
  constructor (CradleApiConfig.mk None "secret" None).

(** The fields of each filter interface under their declared names, in
    declaration order, as the strings they are at run time. *)
Definition MarketFilters_fields (filters : option MarketFilters.t)
    : list (string * option string) :=
  [("market_type", opt_enum filters MarketFilters.market_type MarketType.str);
   ("status", opt_enum filters MarketFilters.status MarketStatus.str);
   ("regulation", opt_enum filters MarketFilters.regulation MarketRegulation.str)].

Definition OrderFilters_fields (filters : option OrderFilters.t)
    : list (string * option string) :=
  [("wallet", opt_field filters OrderFilters.wallet);
   ("market_id", opt_field filters OrderFilters.market_id);
   ("status", opt_enum filters OrderFilters.status OrderStatus.str);
   ("order_type", opt_enum filters OrderFilters.order_type OrderType.str);
   ("from_date", opt_field filters OrderFilters.from_date);
   ("to_date", opt_field filters OrderFilters.to_date)].

Definition TimeSeriesFilters_fields (filters : option TimeSeriesFilters.t)
    : list (string * option string) :=
  [("market_id", opt_field filters TimeSeriesFilters.market_id);
   ("asset", opt_field filters TimeSeriesFilters.asset);
   ("interval", opt_enum filters TimeSeriesFilters.interval TimeSeriesInterval.str);
   ("start_time", opt_field filters TimeSeriesFilters.start_time);
   ("end_time", opt_field filters TimeSeriesFilters.end_time);
   ("data_provider", opt_field filters TimeSeriesFilters.data_provider)].



(** The pairs of the fields that hold a non-empty string, in order. *)
Definition set_pairs (fields : list (string * option string))
    : Url.URLSearchParams :=
  flat_map (fun kv => match snd kv with
                      | Some v => if v =? "" then [] else [(fst kv, v)]
                      | None => []
                      end) fields.

(** Whether no field holds a string with a lone surrogate. *)
Definition well_formed_fields (fields : list (string * option string)) : bool :=
  forallb (fun kv => match snd kv with
                     | Some v => Uri.well_formed v
                     | None => true
                     end) fields.




(** The bytes a form-urlencoded string is made of, those a component
    encoded by [encodeURIComponent] is made of, and the bytes other than
    a given one. *)
Definition form_safe (c : ascii) : bool :=
  Url.unreserved c || (c =? "+")%char || (c =? "%")%char.

Definition uri_safe (c : ascii) : bool :=
  Uri.unreserved c || (c =? "%")%char.

Definition is_not (sep : ascii) (c : ascii) : bool :=
  negb (c =? sep)%char.

(** One invocation of every endpoint method that does nothing but call
    [request]: all of them except [getLendingPoolByName], which encodes
    its argument first. *)
Definition endpoint_calls (network : Network) (this : CradleApiClient.t)
    (id other : string) (markets : option MarketFilters.t)
    (orders : option OrderFilters.t) (series : option TimeSeriesFilters.t)
    (status : LoanStatus.t) (input : JsValue) : list (Async JsValue) :=
  [getAccount network this id; getAccountByLinkedId network this id;
   getAccountWallets network this id; getWallet network this id;
   getWalletByAccountId network this id; getAsset network this id;
   getAssets network this; getAssetByToken network this id;
   getAssetByManager network this id; getMarket network this id;
   getMarkets network this markets; getOrder network this id;
   getOrders network this orders; getTimeSeriesRecord network this id;
   getTimeSeriesRecords network this series; getLendingPool network this id;
   getLendingPools network this; getLendingTransactions network this id;
   getLendingTransactionsByWallet network this id; getLoans network this id;
   getLoansByWallet network this id; getLoan network this id;
   getLendingPoolByAddress network this id;
   getPoolSnapshot network this id; getAllLoans network this;
   getLoansByPool network this id; getLoansByStatus network this status;
   getAllRepayments network this; getRepaymentsByLoan network this id;
   getAllLiquidations network this; getLiquidationsByLoan network this id;
   getPoolInterestRates network this id; getPoolCollateralInfo network this id;
   getPoolStatistics network this id; getUserPositions network this id other;
   airdrop network this input; processMutation network this input;
   createAccount network this input; updateAccountStatus network this input;
   createWallet network this input; createAsset network this input;
   createExistingAsset network this id; createMarket network this input;
   updateMarketStatus network this input; placeOrder network this input;
   cancelOrder network this id; addTimeSeriesRecord network this input;
   createLendingPool network this input; supplyLiquidity network this input;
   withdrawLiquidity network this input; borrowAsset network this input;
   repayBorrow network this input].

(** The outer tags of the mutation union, and whether an object has a
    key among them. *)
Definition outer_tags : list string :=
  ["Accounts"; "Assets"; "Markets"; "OrderBook"; "MarketTimeSeries"; "Pool"; "Loans"].

Definition has_outer_tag (fields : list (string * JsValue)) : bool :=
  existsb (fun outer => match lookup outer fields with
                        | Some _ => true
                        | None => false
                        end) outer_tags.

(** The [error] of the failure envelope [request] builds for a failure
    without a usable response body. *)
Definition envelope_error (e : Thrown) : string :=
  match e with
  | AxiosError message _ => if message =? "" then "Request failed" else message
  | NativeError message => message
  | OtherThrown _ => "Unknown error occurred"
  end.

(** A network that answers the calls one after the other with the given
    outcomes. *)
Definition scripted (outcomes : list Outcome) : Network :=
  fun log _ => nth (List.length log) outcomes (Rejected (OtherThrown JUndefined)).

(** Method and path of a call, and those of the four calls of
    [complexWorkflow]. *)
Definition signature (call : HttpCall.t) : Method * string :=
  (HttpCall.method call, HttpCall.url call).

Definition workflow_signatures : list (Method * string) :=
  [(POST, "/process"); (POST, "/process");
   (GET, "/markets?market_type=spot&status=active"); (POST, "/process")].

(** The calls a script adds to the log: [issues m sigs] when [m] adds
    calls with exactly these signatures if it returns and with the first
    few of them if it throws; [within m sigs] when it adds the first few
    of them either way. *)
Definition starts {A : Type} (xs ys : list A) : Prop :=
  exists rest, ys = (xs ++ rest)%list.

Definition issues {A : Type} (m : Example.Script A) (sigs : list (Method * string))
    : Prop :=
  forall console log,
    exists calls,
      snd (m console log) = (log ++ calls)%list
      /\ match fst (fst (m console log)) with
         | Returned _ => map signature calls = sigs
         | Threw _ => starts (map signature calls) sigs
         end.

Definition within {A : Type} (m : Example.Script A) (sigs : list (Method * string))
    : Prop :=
  forall console log,
    exists calls,
      snd (m console log) = (log ++ calls)%list
      /\ starts (map signature calls) sigs.

(** The body of the last call in a log. *)
Definition last_body (log : list HttpCall.t) : JsValue :=
  match rev log with
  | call :: _ => HttpCall.data call
  | [] => JUndefined
  end.

(** The convenience wrappers, each under the name of the helper for the
    operation it requests. *)
Definition wrapper_calls (network : Network) (this : CradleApiClient.t)
    (input : JsValue) (id : string) : list (string * Async JsValue) :=
  [("isCreateAccount", createAccount network this input);
   ("isUpdateAccountStatus", updateAccountStatus network this input);
   ("isCreateWallet", createWallet network this input);
   ("isCreateAsset", createAsset network this input);
   ("isCreateExistingAsset", createExistingAsset network this id);
   ("isCreateMarket", createMarket network this input);
   ("isUpdateMarketStatus", updateMarketStatus network this input);
   ("isPlaceOrder", placeOrder network this input);
   ("isCancelOrder", cancelOrder network this id);
   ("isAddRecord", addTimeSeriesRecord network this input);
   ("isCreateLendingPool", createLendingPool network this input);
   ("isSupplyLiquidity", supplyLiquidity network this input);
   ("isWithdrawLiquidity", withdrawLiquidity network this input);
   ("isBorrowAsset", borrowAsset network this input);
   ("isRepayBorrow", repayBorrow network this input)].

(** ** The transport adapter *)

Section Adapter.

Variable network : Network.
Variable this : CradleApiClient.t.

Lemma request_fulfilled method path body auth log response :
  network log (request_call this method path body auth) = Fulfilled response ->
  request network this method path body auth log
  = (Returned (AxiosResponse.data response),
     (log ++ [request_call this method path body auth])%list).
Proof.
  intros H. unfold request, try_catch, bind, instance_request, perform.
  destruct auth; simpl; unfold request_call in H; simpl in H; rewrite H; reflexivity.
Qed.

Lemma request_rejected method path body auth log error :
  network log (request_call this method path body auth) = Rejected error ->
  request network this method path body auth log
  = (Returned
       match error with
       | AxiosError message response =>
           if truthy (response_data response) then response_data response
           else ApiResponse false JNull (or_else (JStr message) (JStr "Request failed"))
       | NativeError message => ApiResponse false JNull (JStr message)
       | OtherThrown _ => ApiResponse false JNull (JStr "Unknown error occurred")
       end,
     (log ++ [request_call this method path body auth])%list).
Proof.
  intros H. unfold request, try_catch, bind, instance_request, perform.
  destruct auth; simpl; unfold request_call in H; simpl in H; rewrite H;
    (destruct error as [message response | message | v]; simpl;
     [destruct (truthy (response_data response)) | | ]; reflexivity).
Qed.

(** [request] never throws and issues exactly one call. *)
Lemma request_total method path body auth log :
  exists v,
    request network this method path body auth log
    = (Returned v, (log ++ [request_call this method path body auth])%list).
Proof.
  destruct (network log (request_call this method path body auth)) as [r | e] eqn:E.
  - eexists. apply request_fulfilled. exact E.
  - eexists. apply request_rejected. exact E.
Qed.

(** A failure without a usable response body becomes a failure envelope:
    [success] false, [data] null, and an [error] that is the failure's
    message or a fallback.  The message is non-empty for every failure
    except an [Error] outside axios whose own message is empty: that
    branch has no fallback. *)
Lemma request_failure_envelope method path body auth log e :
  network log (request_call this method path body auth) = Rejected e ->
  usable_body e = false ->
  e <> NativeError "" ->
  exists msg,
    request network this method path body auth log
    = (Returned (ApiResponse false JNull (JStr msg)),
       (log ++ [request_call this method path body auth])%list)
    /\ msg <> ""
    /\ (failure_message e = Some msg \/ msg = "Request failed"
        \/ msg = "Unknown error occurred").
Proof.
  intros H U N. rewrite (request_rejected _ _ _ _ _ _ H).
  destruct e as [message response | message | v]; simpl in *.
  - rewrite U. unfold or_else. simpl.
    destruct (String.eqb_spec message "") as [-> | Hne]; simpl.
    + exists "Request failed". repeat split; [discriminate | auto].
    + exists message. repeat split; auto.
  - exists message. repeat split; auto. intros ->. apply N. reflexivity.
  - exists "Unknown error occurred". repeat split; [discriminate | auto].
Qed.

End Adapter.

(** C1 (defect).  When the call is rejected with an [Error] that is not an
    axios error and whose message is empty, [request] does return a
    failure envelope without throwing, but the [error] of that envelope
    is the empty string, not a non-empty one: this branch copies the
    message and has no fallback, unlike the axios branch before it. *)
Theorem request_native_error_empty_message :
  forall (this : CradleApiClient.t) method path body auth log,
    request (failing_with (NativeError "")) this method path body auth log
    = (Returned (ApiResponse false JNull (JStr "")),
       (log ++ [request_call this method path body auth])%list)
    /\ get "error" (ApiResponse false JNull (JStr "")) = JStr "".
Proof.
  intros this method path body auth log. split; [| reflexivity].
  exact (request_rejected (failing_with (NativeError "")) this method path body
           auth log (NativeError "") eq_refl).
Qed.

(** C2 (counterexample).  The backend answers 200 with a body of the
    declared envelope type in which [success] is true and [data] is null:
    [request] returns it as it is, and the invariant does not hold of
    what was returned. *)
Lemma request_passes_invariant_violation :
  conforms_to_envelope (ApiResponse true JNull JNull) = true
  /\ fst (run (request (backend_returning 200 (ApiResponse true JNull JNull))
                 local_client GET "/accounts/x" JUndefined true))
     = Returned (ApiResponse true JNull JNull)
  /\ envelope_invariant (ApiResponse true JNull JNull) = false.
Proof. repeat split. Qed.

(** C2 (amended).  An envelope that [request] builds itself, for a failure
    without a usable response body, satisfies the invariant; for a call
    that completed with a usable body [request] returns that body
    unchanged, so the invariant holds of the result exactly when it holds
    of what the backend sent. *)
Theorem request_envelope_invariant :
  forall (network : Network) (this : CradleApiClient.t) method path body auth log,
    exists v,
      fst (request network this method path body auth log) = Returned v
      /\ match network log (request_call this method path body auth) with
         | Fulfilled response => v = AxiosResponse.data response
         | Rejected e =>
             if usable_body e
             then match e with
                  | AxiosError _ response => v = response_data response
                  | _ => False
                  end
             else (exists msg, v = ApiResponse false JNull (JStr msg))
                  /\ envelope_invariant v = true
         end.
Proof.
  intros network this method path body auth log.
  destruct (network log (request_call this method path body auth))
    as [response | e] eqn:H.
  - rewrite (request_fulfilled _ _ _ _ _ _ _ _ H). eexists. split; reflexivity.
  - rewrite (request_rejected _ _ _ _ _ _ _ _ H).
    destruct e as [message response | message | v]; simpl.
    + destruct (truthy (response_data response)); eexists; split;
        try reflexivity.
      unfold or_else. destruct (truthy (JStr message)); split;
        try reflexivity; eexists; reflexivity.
    + eexists. split; [reflexivity | split; [eexists |]; reflexivity].
    + eexists. split; [reflexivity | split; [eexists |]; reflexivity].
Qed.

(** C3.  When the call completes with some status and a body of the
    envelope shape, whether axios resolved or rejected with an error that
    carries the response, [request] returns that very body. *)
Theorem request_returns_body_verbatim :
  forall (network : Network) (this : CradleApiClient.t) method path body auth log
         status envelope,
    completed_with (network log (request_call this method path body auth))
    = Some (status, envelope) ->
    conforms_to_envelope envelope = true ->
    request network this method path body auth log
    = (Returned envelope, (log ++ [request_call this method path body auth])%list).
Proof.
  intros network this method path body auth log status envelope H C.
  destruct (network log (request_call this method path body auth))
    as [r | e] eqn:E; simpl in H.
  - injection H as _ <-. apply request_fulfilled. exact E.
  - destruct e as [message [r |] | message | v]; try discriminate.
    injection H as _ <-.
    rewrite (request_rejected _ _ _ _ _ _ _ _ E). simpl.
    destruct (AxiosResponse.data r); try discriminate; reflexivity.
Qed.

Lemma request_returns_body_verbatim_witness :
  request (backend_rejecting 404 "Request failed with status code 404"
             (ApiResponse false JNull (JStr "Account not found")))
    local_client GET "/accounts/x" JUndefined true []
  = (Returned (ApiResponse false JNull (JStr "Account not found")),
     [request_call local_client GET "/accounts/x" JUndefined true])
  /\ request (backend_returning 200 (ApiResponse true (JStr "a") JNull))
       local_client GET "/accounts/x" JUndefined true []
     = (Returned (ApiResponse true (JStr "a") JNull),
        [request_call local_client GET "/accounts/x" JUndefined true]).
Proof.
  split.
  - exact (request_returns_body_verbatim
             (backend_rejecting 404 "Request failed with status code 404"
                (ApiResponse false JNull (JStr "Account not found")))
             local_client GET "/accounts/x" JUndefined true [] 404%Z
             (ApiResponse false JNull (JStr "Account not found")) eq_refl eq_refl).
  - exact (request_returns_body_verbatim
             (backend_returning 200 (ApiResponse true (JStr "a") JNull))
             local_client GET "/accounts/x" JUndefined true [] 200%Z
             (ApiResponse true (JStr "a") JNull) eq_refl eq_refl).
Defined.

(** C4.  [health] does not go through [request]: it issues one GET on the
    library's global instance, to the base URL followed by [/health], with
    none of the client's headers (so no [Authorization]); it returns the
    body of the response as it is, and when the call fails it throws. *)
Theorem health_is_raw :
  forall (network : Network) (this : CradleApiClient.t) log,
    health network this log
    = (match network log (health_call this) with
       | Fulfilled response => Returned (AxiosResponse.data response)
       | Rejected _ => Threw (NativeError "Health check failed")
       end, (log ++ [health_call this])%list)
    /\ HttpCall.method (health_call this) = GET
    /\ HttpCall.url (health_call this)
       = AxiosInstance.baseURL (axiosInstance this) ++ "/health"
    /\ HttpCall.headers (health_call this) = [].
Proof.
  intros network this log. repeat split.
  unfold health, try_catch, bind, axios_get, perform, health_call.
  destruct (network log _); reflexivity.
Qed.

(** ** Endpoints *)

(** C7.  [createAccount] is [request] with method POST, path [/process]
    and the body [{Accounts: {CreateAccount: input}}]: it issues that one
    call, with one outer tag holding one inner tag holding the input as it
    was given, and completes as [request] does; for the input
    [{linked_account_id: 'user-1', account_type: 'retail'}] the body is
    the one of the scenario. *)
Theorem createAccount_posts_tagged_input :
  forall (network : Network) (this : CradleApiClient.t)
         (input : CreateAccountInput.t) log,
    let action := tagged "Accounts" "CreateAccount" (CreateAccountInput.js input) in
    createAccount network this (CreateAccountInput.js input) log
    = request network this POST "/process" action true log
    /\ snd (createAccount network this (CreateAccountInput.js input) log)
       = (log ++ [HttpCall.mk POST
                    (Some (AxiosInstance.baseURL (axiosInstance this)))
                    "/process"
                    (AxiosInstance.headers (axiosInstance this))
                    (AxiosInstance.timeout (axiosInstance this))
                    action])%list
    /\ (exists v,
          fst (createAccount network this (CreateAccountInput.js input) log)
          = Returned v)
    /\ get "CreateAccount" (get "Accounts" action) = CreateAccountInput.js input
    /\ tagged "Accounts" "CreateAccount"
         (CreateAccountInput.js
            (CreateAccountInput.mk "user-1" CradleAccountType.retail))
       = JObj [("Accounts",
                JObj [("CreateAccount",
                       JObj [("linked_account_id", JStr "user-1");
                             ("account_type", JStr "retail")])])].
Proof.
  intros network this input log action.
  destruct (request_total network this POST "/process" action true log) as [v Hv].
  subst action. unfold createAccount, processMutation, tagged in *.
  rewrite Hv. repeat split. exists v. reflexivity.
Qed.

(** C8.  On a well-formed response, a member of the closed union, every
    helper returns (none throws); the helper named after the inner tag
    returns true and every other returns false, so exactly one of the
    seventeen is true; and the payload is what the two property reads the
    helper licenses arrive at. *)
Theorem helpers_exactly_one :
  forall r : MutationResponse.t,
    map (fun h => snd h (MutationResponse.js r)) MutationResponseHelpers.members
    = map (fun h => Some (fst h =? "is" ++ MutationResponse.inner_tag r))
          MutationResponseHelpers.members
    /\ length (filter (fun h => match snd h (MutationResponse.js r) with
                                  | Some true => true
                                  | _ => false
                                  end)
                 MutationResponseHelpers.members) = 1
    /\ get (MutationResponse.inner_tag r)
         (get (MutationResponse.outer_tag r) (MutationResponse.js r))
       = MutationResponse.payload r.
Proof.
  intros r. destruct r; repeat split.
Qed.

(** C9.  [getAccountWallets] and [getWalletByAccountId] issue the same
    request: one GET to [/accounts/<accountId>/wallets] with the client's
    headers and no body, and they complete the same way. *)
Theorem wallets_by_account_same_request :
  forall (network : Network) (this : CradleApiClient.t) (accountId : string) log,
    getAccountWallets network this accountId log
    = getWalletByAccountId network this accountId log
    /\ snd (getAccountWallets network this accountId log)
       = (log ++ [HttpCall.mk GET
                    (Some (AxiosInstance.baseURL (axiosInstance this)))
                    ("/accounts/" ++ accountId ++ "/wallets")
                    (AxiosInstance.headers (axiosInstance this))
                    (AxiosInstance.timeout (axiosInstance this))
                    JUndefined])%list
    /\ snd (getWalletByAccountId network this accountId log)
       = snd (getAccountWallets network this accountId log).
Proof.
  intros network this accountId log.
  destruct (request_total network this GET ("/accounts/" ++ accountId ++ "/wallets")
              JUndefined true log) as [v Hv].
  unfold getAccountWallets, getWalletByAccountId. rewrite Hv. repeat split.
Qed.

(** C10.  The constructor falls back to its defaults on every falsy
    setting: an empty [baseUrl] gives [http://localhost:3000] and a
    [timeout] of 0 gives 30000, just as omitted ones do, so no client has
    an empty base URL or a zero timeout. *)
Theorem constructor_defaults_on_falsy :
  forall (apiKey : string) (baseUrl : option string) (timeout : option Z),
    AxiosInstance.baseURL
      (axiosInstance (constructor (CradleApiConfig.mk (Some "") apiKey timeout)))
    = "http://localhost:3000"
    /\ AxiosInstance.timeout
         (axiosInstance (constructor (CradleApiConfig.mk baseUrl apiKey (Some 0%Z))))
       = 30000%Z
    /\ AxiosInstance.baseURL
         (axiosInstance (constructor (CradleApiConfig.mk baseUrl apiKey timeout)))
       <> ""
    /\ AxiosInstance.timeout
         (axiosInstance (constructor (CradleApiConfig.mk baseUrl apiKey timeout)))
       <> 0%Z.
Proof.
  intros apiKey baseUrl timeout. simpl. repeat split.
  - destruct baseUrl as [s |]; simpl; [| discriminate].
    destruct (String.eqb_spec s ""); simpl; [discriminate | assumption].
  - destruct timeout as [n |]; simpl; [| discriminate].
    destruct (Z.eqb_spec n 0); simpl; [discriminate | assumption].
Qed.

(** ** Query strings *)

Lemma append_nonempty (s t : string) (c : ascii) : s ++ String c t <> "".
Proof. destruct s; discriminate. Qed.

Lemma append_eq_empty (s t : string) : s ++ t = "" -> s = "".
Proof. destruct s; [reflexivity | discriminate]. Qed.

Lemma toString_cons_nonempty (p : string * string) (rest : Url.URLSearchParams) :
  Url.toString (p :: rest) <> "".
Proof.
  unfold Url.toString. simpl. intros H.
  assert (E : Url.serialize_pair p = "").
  { destruct (map Url.serialize_pair rest); [exact H | ].
    apply append_eq_empty in H. exact H. }
  unfold Url.serialize_pair in E. exact (append_nonempty _ _ _ E).
Qed.


Lemma append_when_same (o : option string) (k : string) (params : Url.URLSearchParams) :
  append_when o k same params = (params ++ set_pairs [(k, o)])%list.
Proof.
  unfold append_when, set_pairs, Url.append, same. simpl.
  destruct o as [v |]; simpl; [destruct (v =? "") |]; simpl;
    rewrite ?app_nil_r; reflexivity.
Qed.


(** In a list of set pairs, the pairs are those of the fields holding a
    non-empty string, and the keys follow the order of the fields. *)
Lemma in_set_pairs (fields : list (string * option string)) (k v : string) :
  In (k, v) (set_pairs fields) <-> In (k, Some v) fields /\ v <> "".
Proof.
  unfold set_pairs. rewrite in_flat_map. split.
  - intros ([k' o] & Hin & H). simpl in H. destruct o as [w |]; [| destruct H].
    destruct (String.eqb_spec w "") as [-> | Hne]; [destruct H | ].
    destruct H as [E | []]. injection E as -> ->. auto.
  - intros [Hin Hne]. exists (k, Some v). split; [exact Hin | ]. simpl.
    destruct (String.eqb_spec v ""); [contradiction | left; reflexivity].
Qed.



Lemma getOrders_params_spec (filters : option OrderFilters.t) :
  getOrders_params filters = set_pairs (OrderFilters_fields filters).
Proof.
  unfold getOrders_params, OrderFilters_fields.
  rewrite !append_when_same. unfold set_pairs. simpl.
  rewrite ?app_nil_r, <- ?app_assoc. reflexivity.
Qed.








(** ** The wrappers and the scenarios of the specification *)

(** Every convenience wrapper is [processMutation] on its input under one
    outer and one inner tag. *)
Lemma wrappers_tag_their_input (network : Network) (this : CradleApiClient.t)
    (input : JsValue) (id : string) :
  let send := processMutation network this in
  createAccount network this input = send (tagged "Accounts" "CreateAccount" input)
  /\ updateAccountStatus network this input
     = send (tagged "Accounts" "UpdateAccountStatus" input)
  /\ createWallet network this input = send (tagged "Accounts" "CreateWallet" input)
  /\ createAsset network this input = send (tagged "Assets" "CreateAsset" input)
  /\ createExistingAsset network this id
     = send (tagged "Assets" "CreateExistingAsset" (JStr id))
  /\ createMarket network this input = send (tagged "Markets" "CreateMarket" input)
  /\ updateMarketStatus network this input
     = send (tagged "Markets" "UpdateMarketStatus" input)
  /\ placeOrder network this input = send (tagged "OrderBook" "PlaceOrder" input)
  /\ cancelOrder network this id = send (tagged "OrderBook" "CancelOrder" (JStr id))
  /\ addTimeSeriesRecord network this input
     = send (tagged "MarketTimeSeries" "AddRecord" input)
  /\ createLendingPool network this input
     = send (tagged "Pool" "CreateLendingPool" input)
  /\ supplyLiquidity network this input = send (tagged "Pool" "SupplyLiquidity" input)
  /\ withdrawLiquidity network this input
     = send (tagged "Pool" "WithdrawLiquidity" input)
  /\ borrowAsset network this input = send (tagged "Pool" "BorrowAsset" input)
  /\ repayBorrow network this input = send (tagged "Pool" "RepayBorrow" input).
Proof. repeat split. Qed.

Example getMarkets_spot_active :
  getMarkets_path
    (Some (MarketFilters.mk (Some MarketType.spot) (Some MarketStatus.active) None))
  = "/markets?market_type=spot&status=active".
Proof. reflexivity. Qed.

Example getOrders_encodes_values :
  getOrders_path
    (Some (OrderFilters.mk (Some "w 1") None (Some OrderStatus.open) None
             (Some "2024-01-01T00:00:00Z") None))
  = "/orders?wallet=w+1&status=open&from_date=2024-01-01T00%3A00%3A00Z".
Proof. reflexivity. Qed.

Example getTimeSeriesRecords_readme :
  getTimeSeriesRecords_path
    (Some (TimeSeriesFilters.mk (Some "market-uuid") (Some "asset-uuid")
             (Some TimeSeriesInterval.i1hr)
             (Some "2024-01-01T00:00:00Z") (Some "2024-01-02T00:00:00Z") None))
  = "/time-series?market=market-uuid&asset=asset-uuid&interval=1hr&duration_sec=".
Proof. reflexivity. Qed.

Example getAccount_timeout :
  run (getAccount (failing_with (AxiosError "timeout of 30000ms exceeded" None))
         local_client "x")
  = (Returned (ApiResponse false JNull (JStr "timeout of 30000ms exceeded")),
     [HttpCall.mk GET (Some "http://localhost:3000") "/accounts/x"
        [("Content-Type", "application/json");
         ("Authorization", "Bearer secret");
         ("ngrok-skip-browser-warning", "6969")]
        30000%Z JUndefined]).
Proof. reflexivity. Qed.

Example getAccount_axios_error_without_message :
  fst (run (getAccount (failing_with (AxiosError "" None)) local_client "x"))
  = Returned (ApiResponse false JNull (JStr "Request failed")).
Proof. reflexivity. Qed.

Example getAccount_error_without_message :
  fst (run (getAccount (failing_with (NativeError "")) local_client "x"))
  = Returned (ApiResponse false JNull (JStr "")).
Proof. reflexivity. Qed.

Example getAccount_thrown_string :
  fst (run (getAccount (failing_with (OtherThrown (JStr "boom"))) local_client "x"))
  = Returned (ApiResponse false JNull (JStr "Unknown error occurred")).
Proof. reflexivity. Qed.

Example health_unreachable :
  run (health (failing_with (AxiosError "connect ECONNREFUSED" None)) local_client)
  = (Threw (NativeError "Health check failed"),
     [HttpCall.mk GET None "http://localhost:3000/health" [] 0%Z JUndefined]).
Proof. reflexivity. Qed.

(** Outside the union no helper answers true, and a helper throws when the
    outer key holds something that is not an object. *)
Example helpers_on_malformed_responses :
  map (fun h => snd h (JObj [("Unknown", JObj [("CreateAccount", JStr "a")])]))
      MutationResponseHelpers.members
  = map (fun _ => Some false) MutationResponseHelpers.members
  /\ MutationResponseHelpers.isCreateAccount (JObj [("Accounts", JNull)]) = None.
Proof. split; reflexivity. Qed.

Example createAccount_scenario :
  let answer :=
    ApiResponse true
      (MutationResponse.js (MutationResponse.CreateAccount "acc-1")) JNull in
  let input :=
    CreateAccountInput.js (CreateAccountInput.mk "user-1" CradleAccountType.retail) in
  fst (run (createAccount (backend_returning 200 answer) local_client input))
  = Returned answer
  /\ map HttpCall.data
       (snd (run (createAccount (backend_returning 200 answer) local_client input)))
     = [JObj [("Accounts",
               JObj [("CreateAccount",
                      JObj [("linked_account_id", JStr "user-1");
                            ("account_type", JStr "retail")])])]]
  /\ MutationResponseHelpers.isCreateAccount (get "data" answer) = Some true.
Proof. repeat split. Qed.

(** ** Encodings *)

Ltac each_byte c := destruct c as [[] [] [] [] [] [] [] []].

Lemma all_bytes_app (p : ascii -> bool) (s t : string) :
  Uri.all_bytes p (s ++ t) = Uri.all_bytes p s && Uri.all_bytes p t.
Proof.
  induction s as [| c s IH]; simpl; [reflexivity | ].
  rewrite IH. apply andb_assoc.
Qed.

Lemma all_bytes_impl (p q : ascii -> bool) (s : string) :
  (forall c, p c = true -> q c = true) ->
  Uri.all_bytes p s = true -> Uri.all_bytes q s = true.
Proof.
  intros H. induction s as [| c s IH]; simpl; [reflexivity | ].
  intros E. apply andb_true_iff in E. destruct E as [E1 E2].
  rewrite (H _ E1), (IH E2). reflexivity.
Qed.

Lemma form_urlencode_decode_byte (c : ascii) (t : string) :
  Uri.percent_decode true
    ((if Url.unreserved c then String c ""
      else if (c =? " ")%char then "+"
      else Url.percent_encode_byte c) ++ t)
  = String c (Uri.percent_decode true t).
Proof. each_byte c; reflexivity. Qed.

Lemma form_urlencode_decode (s : string) :
  Uri.percent_decode true (Url.form_urlencode s) = s.
Proof.
  induction s as [| c s IH]; [reflexivity | ].
  simpl Url.form_urlencode. rewrite form_urlencode_decode_byte, IH. reflexivity.
Qed.

Lemma encodeURIComponent_decode_byte (c : ascii) (t : string) :
  Uri.percent_decode false
    ((if Uri.unreserved c then String c "" else Url.percent_encode_byte c) ++ t)
  = String c (Uri.percent_decode false t).
Proof. each_byte c; reflexivity. Qed.

Lemma encodeURIComponent_decode (s : string) :
  Uri.percent_decode false (Uri.encodeURIComponent s) = s.
Proof.
  induction s as [| c s IH]; [reflexivity | ].
  simpl Uri.encodeURIComponent. rewrite encodeURIComponent_decode_byte, IH.
  reflexivity.
Qed.

Lemma form_urlencode_safe (s : string) :
  Uri.all_bytes form_safe (Url.form_urlencode s) = true.
Proof.
  induction s as [| c s IH]; [reflexivity | ].
  simpl Url.form_urlencode. rewrite all_bytes_app, IH, andb_true_r.
  each_byte c; reflexivity.
Qed.

Lemma encodeURIComponent_safe (s : string) :
  Uri.all_bytes uri_safe (Uri.encodeURIComponent s) = true.
Proof.
  induction s as [| c s IH]; [reflexivity | ].
  simpl Uri.encodeURIComponent. rewrite all_bytes_app, IH, andb_true_r.
  each_byte c; reflexivity.
Qed.

Lemma form_urlencode_without (sep : ascii) (s : string) :
  form_safe sep = false ->
  Uri.all_bytes (is_not sep) (Url.form_urlencode s) = true.
Proof.
  intros H. apply (all_bytes_impl form_safe); [| apply form_urlencode_safe].
  intros c Hc. unfold is_not. destruct (Ascii.eqb_spec c sep) as [-> | _];
    [congruence | reflexivity].
Qed.

Lemma break_at_app (sep : ascii) (a b : string) :
  Uri.all_bytes (is_not sep) a = true ->
  Uri.break_at sep (a ++ String sep b) = (a, b).
Proof.
  induction a as [| c a IH]; simpl.
  - intros _. rewrite Ascii.eqb_refl. reflexivity.
  - unfold is_not at 1. intros H. apply andb_true_iff in H. destruct H as [H1 H2].
    apply negb_true_iff in H1. rewrite H1, (IH H2). reflexivity.
Qed.

Lemma split_on_app (sep : ascii) (a b : string) :
  Uri.all_bytes (is_not sep) a = true ->
  Uri.split_on sep (a ++ String sep b) = a :: Uri.split_on sep b.
Proof.
  induction a as [| c a IH]; simpl.
  - intros _. rewrite Ascii.eqb_refl. reflexivity.
  - unfold is_not at 1. intros H. apply andb_true_iff in H. destruct H as [H1 H2].
    apply negb_true_iff in H1. rewrite H1, (IH H2). reflexivity.
Qed.

Lemma split_on_without (sep : ascii) (a : string) :
  Uri.all_bytes (is_not sep) a = true -> Uri.split_on sep a = [a].
Proof.
  induction a as [| c a IH]; simpl; [reflexivity | ].
  unfold is_not at 1. intros H. apply andb_true_iff in H. destruct H as [H1 H2].
  apply negb_true_iff in H1. rewrite H1, (IH H2). reflexivity.
Qed.

Lemma serialize_pair_eq (p : string * string) :
  Url.serialize_pair p
  = Url.form_urlencode (fst p) ++ String "=" (Url.form_urlencode (snd p)).
Proof. reflexivity. Qed.

Lemma serialize_pair_without_amp (p : string * string) :
  Uri.all_bytes (is_not "&") (Url.serialize_pair p) = true.
Proof.
  rewrite serialize_pair_eq, all_bytes_app. simpl.
  rewrite !form_urlencode_without; reflexivity.
Qed.

Lemma serialize_pair_parsed (p : string * string) :
  (Uri.percent_decode true (fst (Uri.break_at "=" (Url.serialize_pair p))),
   Uri.percent_decode true (snd (Uri.break_at "=" (Url.serialize_pair p)))) = p.
Proof.
  rewrite serialize_pair_eq.
  rewrite break_at_app by (apply form_urlencode_without; reflexivity).
  simpl. rewrite !form_urlencode_decode. destruct p; reflexivity.
Qed.

Lemma serialize_pair_nonempty (p : string * string) :
  negb (Url.serialize_pair p =? "") = true.
Proof.
  rewrite serialize_pair_eq.
  destruct (String.eqb_spec (Url.form_urlencode (fst p)
                             ++ String "=" (Url.form_urlencode (snd p))) "")
    as [E | _]; [| reflexivity].
  destruct (append_nonempty _ _ _ E).
Qed.

Lemma parse_query_toString (params : Url.URLSearchParams) :
  Uri.parse_query (Url.toString params) = params.
Proof.
  unfold Uri.parse_query, Url.toString.
  induction params as [| p rest IH]; [reflexivity | ].
  destruct rest as [| q rest].
  - simpl map at 2. simpl String.concat.
    rewrite split_on_without by apply serialize_pair_without_amp.
    simpl filter. rewrite serialize_pair_nonempty. simpl.
    rewrite serialize_pair_parsed. reflexivity.
  - change (String.concat "&" (map Url.serialize_pair (p :: q :: rest)))
      with (Url.serialize_pair p
            ++ String "&" (String.concat "&" (map Url.serialize_pair (q :: rest)))).
    rewrite split_on_app by apply serialize_pair_without_amp.
    simpl filter. rewrite serialize_pair_nonempty. simpl map at 1.
    rewrite serialize_pair_parsed. f_equal. exact IH.
Qed.

(** ** Further properties of the client *)

(** X1.  However its call ends, every endpoint method of a client built
    by the constructor that does nothing but call [request] returns (none
    throws) after issuing exactly one call, and that call goes to the
    configured base URL with the configured timeout and carries the
    three headers of the instance, [Authorization] being [Bearer]
    followed by the API key.  [getLendingPoolByName] does the same for a
    name without a lone surrogate; for a name with one it throws before
    [request] is entered and issues no call. *)
Theorem endpoints_return_and_authenticate :
  forall (network : Network) (config : CradleApiConfig.t) id other name markets
         orders series status input log,
    let authenticated (endpoint : Async JsValue) :=
      exists v call,
        endpoint log = (Returned v, (log ++ [call])%list)
        /\ HttpCall.baseURL call
           = Some (string_or (CradleApiConfig.baseUrl config)
                     "http://localhost:3000")
        /\ HttpCall.timeout call
           = number_or (CradleApiConfig.timeout config) 30000%Z
        /\ HttpCall.headers call
           = [("Content-Type", "application/json");
              ("Authorization", "Bearer " ++ CradleApiConfig.apiKey config);
              ("ngrok-skip-browser-warning", "6969")] in
    Forall authenticated
      (endpoint_calls network (constructor config) id other markets orders
         series status input)
    /\ (if Uri.well_formed name
        then authenticated (getLendingPoolByName network (constructor config) name)
        else exists message,
               getLendingPoolByName network (constructor config) name log
               = (Threw (NativeError message), log)).
Proof.
  intros network config id other name markets orders series status input log
    authenticated.
  subst authenticated. cbv beta. split.
  - unfold endpoint_calls.
    repeat (apply Forall_cons;
            [ match goal with
              | |- exists v call, ?e log = _ /\ _ =>
                  let e' := eval cbv delta
                    [getAccount getAccountByLinkedId getAccountWallets getWallet
                     getWalletByAccountId getAsset getAssets getAssetByToken
                     getAssetByManager getMarket getMarkets getOrder getOrders
                     getTimeSeriesRecord getTimeSeriesRecords getLendingPool
                     getLendingPools getLendingTransactions
                     getLendingTransactionsByWallet getLoans getLoansByWallet
                     getLoan getLendingPoolByAddress
                     getPoolSnapshot getAllLoans getLoansByPool getLoansByStatus
                     getAllRepayments getRepaymentsByLoan getAllLiquidations
                     getLiquidationsByLoan getPoolInterestRates
                     getPoolCollateralInfo getPoolStatistics getUserPositions
                     airdrop processMutation createAccount updateAccountStatus
                     createWallet createAsset createExistingAsset createMarket
                     updateMarketStatus placeOrder cancelOrder addTimeSeriesRecord
                     createLendingPool supplyLiquidity withdrawLiquidity
                     borrowAsset repayBorrow] beta zeta in e in
                  match e' with
                  | request ?n ?t ?m ?p ?b true =>
                      destruct (request_total n t m p b true log) as [v Hv];
                      exists v, (request_call t m p b true);
                      split; [exact Hv | repeat split]
                  end
              end
            | ]).
    apply Forall_nil.
  - unfold getLendingPoolByName. destruct (Uri.well_formed name).
    + destruct (request_total network (constructor config) GET
                  (getLendingPoolByName_path name) JUndefined true log) as [v Hv].
      exists v, (request_call (constructor config) GET
                   (getLendingPoolByName_path name) JUndefined true).
      split; [exact Hv | repeat split].
    + eexists. reflexivity.
Qed.

(** X2.  With [requiresAuth] false, [request] still issues its one call
    through the instance, with the [Authorization] header blanked and
    the other headers, the base URL and the timeout as they are; with
    it true, the header is the bearer token. *)
Theorem request_blanks_authorization :
  forall (network : Network) (config : CradleApiConfig.t) method path body auth log,
    snd (request network (constructor config) method path body auth log)
    = (log ++ [HttpCall.mk method
                 (Some (string_or (CradleApiConfig.baseUrl config)
                          "http://localhost:3000"))
                 path
                 [("Content-Type", "application/json");
                  ("Authorization",
                   if auth
                   then ("Bearer " ++ CradleApiConfig.apiKey config)%string
                   else "");
                  ("ngrok-skip-browser-warning", "6969")]
                 (number_or (CradleApiConfig.timeout config) 30000%Z)
                 body])%list.
Proof.
  intros network config method path body auth log.
  destruct (request_total network (constructor config) method path body auth log)
    as [v Hv].
  rewrite Hv. destruct auth; reflexivity.
Qed.

(** X3.  When axios rejects with a response whose body is falsy (null,
    false, 0 or the empty string), [request] does not hand that body on:
    it answers with a failure envelope carrying the message of the axios
    error.  The same body on a resolved call is returned as it is. *)
Theorem request_replaces_falsy_error_body :
  forall (network : Network) (this : CradleApiClient.t) method path body auth log
         message (response : AxiosResponse.t),
    truthy (AxiosResponse.data response) = false ->
    message <> "" ->
    (network log (request_call this method path body auth)
     = Rejected (AxiosError message (Some response)) ->
     fst (request network this method path body auth log)
     = Returned (ApiResponse false JNull (JStr message)))
    /\ (network log (request_call this method path body auth)
        = Fulfilled response ->
        fst (request network this method path body auth log)
        = Returned (AxiosResponse.data response)).
Proof.
  intros network this method path body auth log message response F N. split.
  - intros H. rewrite (request_rejected _ _ _ _ _ _ _ _ H). simpl.
    rewrite F. unfold or_else. simpl.
    destruct (String.eqb_spec message ""); [contradiction | reflexivity].
  - intros H. rewrite (request_fulfilled _ _ _ _ _ _ _ _ H). reflexivity.
Qed.

Lemma request_replaces_falsy_error_body_witness :
  fst (request (backend_rejecting 502 "Request failed with status code 502" (JStr ""))
         local_client GET "/accounts/x" JUndefined true [])
  = Returned (ApiResponse false JNull (JStr "Request failed with status code 502")).
Proof.
  refine (proj1 (request_replaces_falsy_error_body
                   (backend_rejecting 502 "Request failed with status code 502" (JStr ""))
                   local_client GET "/accounts/x" JUndefined true []
                   "Request failed with status code 502"
                   (AxiosResponse.mk 502 (JStr "")) _ _) _);
    [reflexivity | discriminate | reflexivity].
Defined.

(** X4.  The constructor takes a non-empty base URL and a non-zero
    timeout as they are given, negative timeouts included: it validates
    neither. *)
Theorem constructor_keeps_given_settings :
  forall (baseUrl apiKey : string) (timeout : Z),
    baseUrl <> "" ->
    timeout <> 0%Z ->
    axiosInstance
      (constructor (CradleApiConfig.mk (Some baseUrl) apiKey (Some timeout)))
    = AxiosInstance.mk baseUrl timeout
        [("Content-Type", "application/json");
         ("Authorization", "Bearer " ++ apiKey);
         ("ngrok-skip-browser-warning", "6969")].
Proof.
  intros baseUrl apiKey timeout Hb Ht. unfold constructor. simpl.
  destruct (String.eqb_spec baseUrl ""); [contradiction | ].
  destruct (Z.eqb_spec timeout 0); [contradiction | reflexivity].
Qed.

Lemma constructor_keeps_given_settings_witness :
  axiosInstance
    (constructor (CradleApiConfig.mk (Some "https://api.example") "k" (Some (-5)%Z)))
  = AxiosInstance.mk "https://api.example" (-5)%Z
      [("Content-Type", "application/json");
       ("Authorization", "Bearer k");
       ("ngrok-skip-browser-warning", "6969")].
Proof.
  apply (constructor_keeps_given_settings "https://api.example" "k" (-5)%Z);
    discriminate.
Defined.

Lemma append_left_cancel (base s t : string) : base ++ s = base ++ t -> s = t.
Proof.
  induction base as [| c base IH]; simpl; [auto | ].
  intros H. injection H as H. auto.
Qed.

Lemma append_not_self (base : string) (c : ascii) (t : string) :
  base <> base ++ String c t.
Proof.
  induction base as [| a base IH]; simpl; [discriminate | ].
  intros H. injection H as H. exact (IH H).
Qed.

Lemma toString_nil_iff (params : Url.URLSearchParams) :
  Url.toString params = "" <-> params = [].
Proof.
  split; [| intros ->; reflexivity].
  destruct params as [| p rest]; [reflexivity | ].
  intros E. destruct (toString_cons_nonempty _ _ E).
Qed.

Lemma with_query_determines_params (base : string) (ps qs : Url.URLSearchParams) :
  with_query base ps = with_query base qs -> ps = qs.
Proof.
  unfold with_query. simpl truthy.
  destruct (String.eqb_spec (Url.toString ps) "") as [Ep | Np];
    destruct (String.eqb_spec (Url.toString qs) "") as [Eq | Nq]; simpl.
  - intros _. apply toString_nil_iff in Ep, Eq. congruence.
  - intros H. destruct (append_not_self _ _ _ H).
  - intros H. symmetry in H. destruct (append_not_self _ _ _ H).
  - intros H. apply append_left_cancel in H. injection H as H.
    rewrite <- (parse_query_toString ps), <- (parse_query_toString qs), H.
    reflexivity.
Qed.

Lemma with_query_base_iff (base : string) (ps : Url.URLSearchParams) :
  with_query base ps = base <-> ps = [].
Proof.
  split; [| intros ->; reflexivity].
  intros H. apply (with_query_determines_params base ps []). exact H.
Qed.

(** X5.  The path of a filtered listing determines the parameters that
    were sent: two filters give the same path only if they give the same
    list of parameters, so no value of a filter field can pass for another
    parameter or for a different set of parameters.  A receiver that
    parses the query string gets the parameters back as they were
    appended. *)
Theorem listing_path_determines_parameters :
  forall (m1 m2 : option MarketFilters.t) (o1 o2 : option OrderFilters.t)
         (t1 t2 : option TimeSeriesFilters.t),
    (getMarkets_path m1 = getMarkets_path m2 ->
     getMarkets_params m1 = getMarkets_params m2)
    /\ (getOrders_path o1 = getOrders_path o2 ->
        getOrders_params o1 = getOrders_params o2)
    /\ (getTimeSeriesRecords_path t1 = getTimeSeriesRecords_path t2 ->
        getTimeSeriesRecords_params t1 = getTimeSeriesRecords_params t2)
    /\ Uri.parse_query (Url.toString (getMarkets_params m1)) = getMarkets_params m1
    /\ Uri.parse_query (Url.toString (getOrders_params o1)) = getOrders_params o1
    /\ Uri.parse_query (Url.toString (getTimeSeriesRecords_params t1))
       = getTimeSeriesRecords_params t1.
Proof.
  intros m1 m2 o1 o2 t1 t2.
  repeat split; try apply parse_query_toString;
    apply with_query_determines_params.
Qed.

(** X6.  Two order filters whose strings are free of lone surrogates give
    the same path only if they agree on every field that holds a
    non-empty string, name and value.  (URLSearchParams keeps such
    strings as they are passed; a lone surrogate it sends as U+FFFD, so
    filters that differ only there can share a path.) *)
Theorem orders_path_determines_set_fields :
  forall (o1 o2 : option OrderFilters.t) (k v : string),
    well_formed_fields (OrderFilters_fields o1) = true ->
    well_formed_fields (OrderFilters_fields o2) = true ->
    getOrders_path o1 = getOrders_path o2 ->
    v <> "" ->
    (In (k, Some v) (OrderFilters_fields o1)
     <-> In (k, Some v) (OrderFilters_fields o2)).
Proof.
  intros o1 o2 k v _ _ H N.
  apply with_query_determines_params in H.
  rewrite !getOrders_params_spec in H.
  assert (E : forall o, In (k, Some v) (OrderFilters_fields o)
                        <-> In (k, v) (set_pairs (OrderFilters_fields o))).
  { intros o. rewrite in_set_pairs. tauto. }
  rewrite !E, H. reflexivity.
Qed.

Lemma orders_path_determines_set_fields_witness :
  In ("wallet", Some "w1")
     (OrderFilters_fields (Some (OrderFilters.mk (Some "w1") (Some "") None None None None)))
  <-> In ("wallet", Some "w1")
         (OrderFilters_fields (Some (OrderFilters.mk (Some "w1") None None None None None))).
Proof.
  apply (orders_path_determines_set_fields
           (Some (OrderFilters.mk (Some "w1") (Some "") None None None None))
           (Some (OrderFilters.mk (Some "w1") None None None None None))
           "wallet" "w1"); [reflexivity | reflexivity | reflexivity | discriminate].
Defined.

Lemma append_when_nil_iff (o : option string) (k : string)
    (value : string -> string) (params : Url.URLSearchParams) :
  append_when o k value params = []
  <-> params = [] /\ truthy_field o = false.
Proof.
  unfold append_when, Url.append. destruct o as [v |]; simpl.
  - destruct (v =? ""); simpl.
    + split; [auto | tauto].
    + split; [intros H; apply app_eq_nil in H; destruct H; discriminate
             | intros [_ H]; discriminate].
  - split; [auto | tauto].
Qed.

(** X7.  A listing is requested on its bare path exactly when the filter
    sets nothing: no filter object, no field, or only fields that are
    empty strings; for the time series [end_time] does not count. *)
Theorem listing_bare_path_iff_nothing_set :
  forall (markets : option MarketFilters.t) (orders : option OrderFilters.t)
         (series : option TimeSeriesFilters.t),
    (getMarkets_path markets = "/markets"
     <-> Forall (fun kv => snd kv = None) (MarketFilters_fields markets))
    /\ (getOrders_path orders = "/orders"
        <-> Forall (fun kv => truthy_field (snd kv) = false)
              (OrderFilters_fields orders))
    /\ (getTimeSeriesRecords_path series = "/time-series"
        <-> Forall (fun kv => truthy_field (snd kv) = false)
              (filter (fun kv => negb (fst kv =? "end_time"))
                 (TimeSeriesFilters_fields series))).
Proof.
  intros markets orders series.
  unfold getMarkets_path, getOrders_path, getTimeSeriesRecords_path.
  rewrite !with_query_base_iff. split; [| split].
  - destruct markets as [[[[] |] [[] |] [[] |]] |];
      unfold MarketFilters_fields, getMarkets_params, append_when, Url.append;
      simpl;
      (split; [intros H; try discriminate; repeat constructor
              | intros H; try reflexivity;
                repeat match goal with
                       | H : Forall _ (_ :: _) |- _ => inversion H; clear H; subst
                       end; simpl in *; discriminate]).
  - unfold getOrders_params, OrderFilters_fields.
    rewrite !append_when_nil_iff, !Forall_cons_iff, Forall_nil_iff. simpl.
    tauto.
  - unfold getTimeSeriesRecords_params, TimeSeriesFilters_fields.
    simpl filter.
    rewrite !append_when_nil_iff, !Forall_cons_iff, Forall_nil_iff. simpl.
    tauto.
Qed.

Lemma listing_path_determines_parameters_witness :
  getOrders_params
    (Some (OrderFilters.mk (Some "w1") (Some "") None None None None))
  = getOrders_params
      (Some (OrderFilters.mk (Some "w1") None None None None None)).
Proof.
  apply (proj1 (proj2 (listing_path_determines_parameters None None
                         (Some (OrderFilters.mk (Some "w1") (Some "") None None None None))
                         (Some (OrderFilters.mk (Some "w1") None None None None None))
                         None None))).
  reflexivity.
Defined.

(** X8.  [getTimeSeriesRecords] does not look at [end_time] and looks at
    [start_time] only to see whether it is set: two filters that differ
    in nothing else, both with a non-empty [start_time], produce the same
    request and get the same answer. *)
Theorem time_series_ignores_time_range :
  forall (network : Network) (this : CradleApiClient.t) market_id asset interval
         data_provider (start1 start2 : string) (end1 end2 : option string) log,
    start1 <> "" ->
    start2 <> "" ->
    getTimeSeriesRecords network this
      (Some (TimeSeriesFilters.mk market_id asset interval (Some start1) end1
               data_provider)) log
    = getTimeSeriesRecords network this
        (Some (TimeSeriesFilters.mk market_id asset interval (Some start2) end2
                 data_provider)) log.
Proof.
  intros network this market_id asset interval data_provider start1 start2
    end1 end2 log H1 H2.
  unfold getTimeSeriesRecords. f_equal.
  unfold getTimeSeriesRecords_path, getTimeSeriesRecords_params. simpl.
  destruct start1; [contradiction | ]. destruct start2; [contradiction | ].
  reflexivity.
Qed.

Lemma time_series_ignores_time_range_witness :
  getTimeSeriesRecords (backend_returning 200 (ApiResponse true (JArr []) JNull))
    local_client
    (Some (TimeSeriesFilters.mk (Some "m1") None None (Some "2024-01-01T00:00:00Z")
             (Some "2024-01-02T00:00:00Z") None)) []
  = getTimeSeriesRecords (backend_returning 200 (ApiResponse true (JArr []) JNull))
      local_client
      (Some (TimeSeriesFilters.mk (Some "m1") None None (Some "1999-12-31T00:00:00Z")
               None None)) [].
Proof.
  apply (time_series_ignores_time_range
           (backend_returning 200 (ApiResponse true (JArr []) JNull)) local_client
           (Some "m1") None None None
           "2024-01-01T00:00:00Z" "1999-12-31T00:00:00Z"
           (Some "2024-01-02T00:00:00Z") None []); discriminate.
Defined.

(** X9.  The path of [getLendingPoolByName] is [/pools/name/] followed by
    one segment made of unreserved bytes and percent escapes only:
    whatever the name contains, the segment has no [/], [?], [#], [&] or
    space, so the path never continues below the name. *)
Theorem pool_name_is_one_safe_segment :
  forall name before after : string,
    getLendingPoolByName_path name = "/pools/name/" ++ Uri.encodeURIComponent name
    /\ Uri.all_bytes uri_safe (Uri.encodeURIComponent name) = true
    /\ Uri.all_bytes (is_not "/") (Uri.encodeURIComponent name) = true
    /\ Uri.all_bytes (is_not "?") (Uri.encodeURIComponent name) = true
    /\ Uri.all_bytes (is_not "#") (Uri.encodeURIComponent name) = true
    /\ Uri.all_bytes (is_not "&") (Uri.encodeURIComponent name) = true
    /\ Uri.all_bytes (is_not " ") (Uri.encodeURIComponent name) = true
    /\ getLendingPoolByName_path name <> "/pools/name/" ++ before ++ "/" ++ after.
Proof.
  intros name before after.
  assert (W : forall sep, uri_safe sep = false ->
                Uri.all_bytes (is_not sep) (Uri.encodeURIComponent name) = true).
  { intros sep H. apply (all_bytes_impl uri_safe); [| apply encodeURIComponent_safe].
    intros c Hc. unfold is_not. destruct (Ascii.eqb_spec c sep) as [-> | _];
      [congruence | reflexivity]. }
  split; [reflexivity | ].
  split; [apply encodeURIComponent_safe | ].
  repeat (split; [apply W; reflexivity | ]).
  intros H. unfold getLendingPoolByName_path in H.
  apply append_left_cancel in H.
  assert (S := W "/"%char eq_refl). rewrite H, all_bytes_app in S.
  simpl in S. rewrite andb_false_r in S. discriminate.
Qed.

(** X10.  Distinct pool names are requested on distinct paths: the name
    can be read back from the path by percent-decoding its last
    segment. *)
Theorem pool_name_path_injective :
  forall name1 name2 : string,
    getLendingPoolByName_path name1 = getLendingPoolByName_path name2 ->
    name1 = name2.
Proof.
  intros name1 name2 H. unfold getLendingPoolByName_path in H.
  apply append_left_cancel in H.
  rewrite <- (encodeURIComponent_decode name1), <- (encodeURIComponent_decode name2), H.
  reflexivity.
Qed.

Lemma pool_name_path_injective_witness : "USDC Lending Pool" = "USDC Lending Pool".
Proof.
  apply (pool_name_path_injective "USDC Lending Pool" "USDC Lending Pool").
  reflexivity.
Defined.

(** X11.  The other endpoints splice their identifiers into the path as
    they are, so an identifier that contains path syntax reaches another
    endpoint: the request is the very one that endpoint would make. *)
Theorem identifiers_are_spliced_verbatim :
  forall (network : Network) (this : CradleApiClient.t) (id other : string),
    getAccount network this (id ++ "/wallets") = getAccountWallets network this id
    /\ getAccount network this ("linked/" ++ id) = getAccountByLinkedId network this id
    /\ getAsset network this ("token/" ++ id) = getAssetByToken network this id
    /\ getAsset network this ("manager/" ++ id) = getAssetByManager network this id
    /\ getLendingPool network this ("address/" ++ id)
       = getLendingPoolByAddress network this id
    /\ getLendingPool network this (id ++ "/snapshot") = getPoolSnapshot network this id
    /\ getLendingPool network this (id ++ "/transactions")
       = getLendingTransactions network this id
    /\ getLendingPool network this (id ++ "/user-positions/" ++ other)
       = getUserPositions network this id other.
Proof. intros network this id other. repeat split. Qed.

(** X12.  Outside the union the helpers behave as the [in] operator does:
    on undefined, null, a boolean, a number or a string every helper
    throws; on an array, and on an object that has none of the seven
    outer keys, every helper answers false. *)
Theorem helpers_outside_the_union :
  forall v : JsValue,
    match v with
    | JObj fields =>
        if has_outer_tag fields then True
        else Forall (fun h => snd h v = Some false) MutationResponseHelpers.members
    | JArr _ => Forall (fun h => snd h v = Some false) MutationResponseHelpers.members
    | _ => Forall (fun h => snd h v = None) MutationResponseHelpers.members
    end.
Proof.
  intros v. destruct v as [| | b | n | s | items | fields];
    try (repeat constructor).
  destruct (has_outer_tag fields) eqn:E; [exact I | ].
  unfold has_outer_tag, outer_tags in E. simpl in E.
  repeat match type of E with
         | _ || _ = false => apply orb_false_iff in E; destruct E as [? E]
         end.
  repeat match goal with
         | H : match lookup ?k fields with Some _ => true | None => false end = false
           |- _ => destruct (lookup k fields) eqn:?; [discriminate H | clear H]
         end.
  unfold MutationResponseHelpers.members.
  repeat (apply Forall_cons;
          [cbv [snd MutationResponseHelpers.isCreateAccount
                  MutationResponseHelpers.isUpdateAccountStatus
                  MutationResponseHelpers.isCreateWallet
                  MutationResponseHelpers.isCreateAsset
                  MutationResponseHelpers.isCreateExistingAsset
                  MutationResponseHelpers.isCreateMarket
                  MutationResponseHelpers.isUpdateMarketStatus
                  MutationResponseHelpers.isPlaceOrder
                  MutationResponseHelpers.isCancelOrder
                  MutationResponseHelpers.isAddRecord
                  MutationResponseHelpers.isCreateLendingPool
                  MutationResponseHelpers.isSupplyLiquidity
                  MutationResponseHelpers.isWithdrawLiquidity
                  MutationResponseHelpers.isBorrowAsset
                  MutationResponseHelpers.isRepayBorrow
                  MutationResponseHelpers.isCreateRepayment
                  MutationResponseHelpers.isCreateLiquidation has_key and_then];
           repeat match goal with
                  | H : lookup ?k fields = None |- context [lookup ?k fields] =>
                      rewrite H
                  end; reflexivity
          | ]).
  apply Forall_nil.
Qed.

(** X13.  The helpers test the two tags and nothing else: on a value with
    the tags of a member of the union they give the same answers whatever
    the payload is, so a helper that answers true says nothing about the
    payload having the declared type. *)
Theorem helpers_ignore_the_payload :
  forall (r : MutationResponse.t) (payload : JsValue),
    map (fun h => snd h (tagged (MutationResponse.outer_tag r)
                           (MutationResponse.inner_tag r) payload))
        MutationResponseHelpers.members
    = map (fun h => snd h (MutationResponse.js r)) MutationResponseHelpers.members
    /\ get (MutationResponse.inner_tag r)
         (get (MutationResponse.outer_tag r)
            (tagged (MutationResponse.outer_tag r) (MutationResponse.inner_tag r)
               payload))
       = payload.
Proof. intros r payload. destruct r; split; reflexivity. Qed.

(** ** The example scripts *)

Lemma await_request (network : Network) (this : CradleApiClient.t) method path body
    auth console log :
  exists v,
    Example.await (request network this method path body auth) console log
    = (Returned v, console, (log ++ [request_call this method path body auth])%list).
Proof.
  destruct (request_total network this method path body auth log) as [v Hv].
  exists v. unfold Example.await. rewrite Hv. reflexivity.
Qed.

Lemma await_request_rejected (network : Network) (this : CradleApiClient.t) method
    path body auth console log e :
  network log (request_call this method path body auth) = Rejected e ->
  usable_body e = false ->
  Example.await (request network this method path body auth) console log
  = (Returned (ApiResponse false JNull (JStr (envelope_error e))), console,
     (log ++ [request_call this method path body auth])%list).
Proof.
  intros H U. unfold Example.await.
  rewrite (request_rejected _ _ _ _ _ _ _ _ H).
  destruct e as [message response | message | v]; simpl in *.
  - rewrite U. unfold or_else. simpl. destruct (message =? ""); reflexivity.
  - reflexivity.
  - reflexivity.
Qed.

Lemma await_request_fulfilled (network : Network) (this : CradleApiClient.t) method
    path body auth console log response :
  network log (request_call this method path body auth) = Fulfilled response ->
  Example.await (request network this method path body auth) console log
  = (Returned (AxiosResponse.data response), console,
     (log ++ [request_call this method path body auth])%list).
Proof.
  intros H. unfold Example.await.
  rewrite (request_fulfilled _ _ _ _ _ _ _ _ H). reflexivity.
Qed.

Lemma health_run (network : Network) (this : CradleApiClient.t) log :
  health network this log
  = (match network log (health_call this) with
     | Fulfilled response => Returned (AxiosResponse.data response)
     | Rejected _ => Threw (NativeError "Health check failed")
     end, (log ++ [health_call this])%list).
Proof.
  unfold health, try_catch, bind, axios_get, perform, health_call.
  destruct (network log _); reflexivity.
Qed.

(** X14.  Run as shipped, the examples file prints its banner and makes
    one HTTP call, the GET of the health check on
    [http://localhost:3000], without the API key or any other header of
    the client.  When that call settles, fulfilled or rejected, [main]
    prints the body it got or the failure and returns: it does not
    throw.  (The call is made on the library's global instance, with no
    timeout; a call that never settles has no outcome here.) *)
Theorem main_makes_one_unauthenticated_call :
  forall (network : Network) (API_SECRET_KEY : option string) console log,
    let call :=
      HttpCall.mk GET None "http://localhost:3000/health" [] 0%Z JUndefined in
    Example.main network API_SECRET_KEY console log
    = (Returned tt,
       (console
        ++ [Example.Log [Example.AText
                           ("=== Cradle API Client Examples ===" ++ String "010" "")];
            match network log call with
            | Fulfilled response =>
                Example.Log [Example.AText "API Health:";
                             Example.AValue (AxiosResponse.data response)]
            | Rejected _ =>
                Example.Error [Example.AText "Health check failed:";
                               Example.AThrown (NativeError "Health check failed")]
            end])%list,
       (log ++ [call])%list).
Proof.
  intros network key console log call.
  unfold Example.main, Example.checkHealth, Example.seq, Example.attempt,
    Example.await, Example.console_log, Example.console_error.
  rewrite health_run.
  change (health_call (Example.client key)) with call.
  destruct (network log call); rewrite <- app_assoc; reflexivity.
Qed.

(** X15.  When both calls of [demonstrateErrorHandling] fail on the
    network with no usable response body, the script returns normally and
    reports them as [Error occurred:] and [API error:] with the messages
    of the failure envelopes; the [catch] clause that prints
    [Network error:] is not entered. *)
Theorem demonstrateErrorHandling_on_network_failures :
  forall (network : Network) (API_SECRET_KEY : option string) console log e1 e2,
    let this := Example.client API_SECRET_KEY in
    let call1 := request_call this GET "/accounts/invalid-uuid" JUndefined true in
    let call2 := request_call this GET "/markets" JUndefined true in
    network log call1 = Rejected e1 ->
    usable_body e1 = false ->
    network (log ++ [call1])%list call2 = Rejected e2 ->
    usable_body e2 = false ->
    Example.demonstrateErrorHandling network API_SECRET_KEY console log
    = (Returned tt,
       (console
        ++ [Example.Error [Example.AText "Error occurred:";
                           Example.AValue (JStr (envelope_error e1))];
            Example.Error [Example.AText "API error:";
                           Example.AValue (JStr (envelope_error e2))]])%list,
       (log ++ [call1; call2])%list).
Proof.
  intros network key console log e1 e2 this call1 call2 H1 U1 H2 U2.
  subst this call1 call2.
  unfold Example.demonstrateErrorHandling, getAccount, getMarkets.
  change (getMarkets_path None) with "/markets".
  change ("/accounts/" ++ "invalid-uuid") with "/accounts/invalid-uuid".
  unfold Example.seq at 1.
  rewrite (await_request_rejected _ _ _ _ _ _ _ _ _ H1 U1).
  unfold Example.attempt, Example.seq, Example.prop, Example.pure,
    Example.console_error. simpl.
  rewrite (await_request_rejected _ _ _ _ _ _ _ _ _ H2 U2).
  simpl. rewrite <- !app_assoc. reflexivity.
Qed.

Lemma demonstrateErrorHandling_on_network_failures_witness :
  Example.start
    (Example.demonstrateErrorHandling
       (failing_with (AxiosError "connect ECONNREFUSED 127.0.0.1:3000" None)) None)
  = (Returned tt,
     [Example.Error [Example.AText "Error occurred:";
                     Example.AValue (JStr "connect ECONNREFUSED 127.0.0.1:3000")];
      Example.Error [Example.AText "API error:";
                     Example.AValue (JStr "connect ECONNREFUSED 127.0.0.1:3000")]],
     [request_call (Example.client None) GET "/accounts/invalid-uuid" JUndefined true;
      request_call (Example.client None) GET "/markets" JUndefined true]).
Proof.
  apply (demonstrateErrorHandling_on_network_failures
           (failing_with (AxiosError "connect ECONNREFUSED 127.0.0.1:3000" None))
           None [] []
           (AxiosError "connect ECONNREFUSED 127.0.0.1:3000" None)
           (AxiosError "connect ECONNREFUSED 127.0.0.1:3000" None));
    reflexivity.
Defined.

Lemma await_request_rejected_body (network : Network) (this : CradleApiClient.t)
    method path body auth console log message response :
  network log (request_call this method path body auth)
  = Rejected (AxiosError message response) ->
  truthy (response_data response) = true ->
  Example.await (request network this method path body auth) console log
  = (Returned (response_data response), console,
     (log ++ [request_call this method path body auth])%list).
Proof.
  intros H U. unfold Example.await.
  rewrite (request_rejected _ _ _ _ _ _ _ _ H). rewrite U. reflexivity.
Qed.

(** X16.  In [demonstrateErrorHandling] the [catch] clause that prints
    [Network error:] is entered only when the call to [getMarkets]
    succeeded on the network with a body that is null or undefined, and
    what it prints then is the TypeError of reading [success] off that
    body: no failure of the network reaches it. *)
Theorem network_error_branch_means_nullish_body :
  forall (network : Network) (API_SECRET_KEY : option string) args,
    let this := Example.client API_SECRET_KEY in
    let call1 := request_call this GET "/accounts/invalid-uuid" JUndefined true in
    let call2 := request_call this GET "/markets" JUndefined true in
    In (Example.Error (Example.AText "Network error:" :: args))
       (snd (fst (Example.start
                    (Example.demonstrateErrorHandling network API_SECRET_KEY)))) ->
    exists response,
      network [call1] call2 = Fulfilled response
      /\ is_nullish (AxiosResponse.data response) = true
      /\ exists message, args = [Example.AThrown (NativeError message)].
Proof.
  intros network key args this call1 call2. subst this call1 call2.
  unfold Example.start, Example.demonstrateErrorHandling, getAccount, getMarkets.
  change (getMarkets_path None) with "/markets".
  change ("/accounts/" ++ "invalid-uuid") with "/accounts/invalid-uuid".
  unfold Example.seq at 1.
  destruct (await_request network (Example.client key) GET "/accounts/invalid-uuid"
              JUndefined true [] []) as [v1 E1].
  rewrite E1. clear E1. simpl app.
  set (call1 := request_call (Example.client key) GET "/accounts/invalid-uuid"
                  JUndefined true).
  set (call2 := request_call (Example.client key) GET "/markets" JUndefined true).
  assert (Second :
            forall console,
              (forall a, ~ In (Example.Error (Example.AText "Network error:" :: a))
                           console) ->
              In (Example.Error (Example.AText "Network error:" :: args))
                 (snd (fst (Example.attempt
                              (Example.seq
                                 (Example.await
                                    (request network (Example.client key) GET
                                       "/markets" JUndefined true))
                                 (fun result =>
                                    Example.seq (Example.prop "success" result)
                                      (fun success0 =>
                                         if truthy success0
                                         then Example.seq
                                                (Example.prop "data" result)
                                                (fun data =>
                                                   Example.console_log
                                                     [Example.AText "Markets:";
                                                      Example.AValue data])
                                         else Example.seq
                                                (Example.prop "error" result)
                                                (fun error =>
                                                   Example.console_error
                                                     [Example.AText "API error:";
                                                      Example.AValue error]))))
                              (fun error =>
                                 Example.console_error
                                   [Example.AText "Network error:";
                                    Example.AThrown error])
                              console [call1]))) ->
              exists response,
                network [call1] call2 = Fulfilled response
                /\ is_nullish (AxiosResponse.data response) = true
                /\ exists message, args = [Example.AThrown (NativeError message)]).
  { intros console Clean.
    unfold Example.attempt, Example.seq at 1.
    destruct (network [call1] call2) as [response | e] eqn:N; unfold call2 in N.
    - rewrite (await_request_fulfilled _ _ _ _ _ _ _ _ _ N).
      destruct (AxiosResponse.data response) eqn:D;
        unfold Example.seq, Example.prop, Example.pure, Example.raise,
          Example.console_log, Example.console_error; simpl;
        repeat match goal with
               | |- context [if truthy ?x then _ else _] =>
                   destruct (truthy x); simpl
               end;
        rewrite ?in_app_iff; simpl; intros H;
        repeat (destruct H as [H | H]);
        try (destruct (Clean _ H)); try discriminate H; try contradiction;
        injection H as <-; exists response; rewrite D; eauto.
    - destruct (usable_body e) eqn:U.
      + destruct e as [message response | message | v]; try discriminate U.
        simpl in U.
        rewrite (await_request_rejected_body _ _ _ _ _ _ _ _ _ _ N U).
        destruct (response_data response) eqn:D; try discriminate U;
          unfold Example.seq, Example.prop, Example.pure, Example.raise,
            Example.console_log, Example.console_error; simpl;
          repeat match goal with
               | |- context [if truthy ?x then _ else _] =>
                   destruct (truthy x); simpl
               end;
          rewrite ?in_app_iff; simpl; intros H;
          repeat (destruct H as [H | H]);
          try (destruct (Clean _ H)); try discriminate H; contradiction.
      + rewrite (await_request_rejected _ _ _ _ _ _ _ _ _ N U).
        unfold Example.seq, Example.prop, Example.pure, Example.raise,
          Example.console_log, Example.console_error; simpl.
        rewrite ?in_app_iff; simpl; intros H;
          repeat (destruct H as [H | H]);
          try (destruct (Clean _ H)); try discriminate H; contradiction. }
  destruct v1;
    unfold Example.seq at 1, Example.prop, Example.pure, Example.raise; simpl;
    try (intros []; fail).
  all: unfold Example.seq at 1.
  all: try (destruct (truthy _); simpl).
  all: unfold Example.seq, Example.prop, Example.pure, Example.raise,
         Example.console_error; simpl.
  all: apply Second; simpl; intros a H; intuition discriminate.
Qed.

Lemma network_error_branch_means_nullish_body_witness :
  exists response,
    scripted [Fulfilled (AxiosResponse.mk 200 (ApiResponse true (JStr "a") JNull));
              Fulfilled (AxiosResponse.mk 200 JNull)]
      [request_call (Example.client None) GET "/accounts/invalid-uuid" JUndefined true]
      (request_call (Example.client None) GET "/markets" JUndefined true)
    = Fulfilled response
    /\ is_nullish (AxiosResponse.data response) = true
    /\ exists message,
         [Example.AThrown
            (NativeError "Cannot read properties of null (reading 'success')")]
         = [Example.AThrown (NativeError message)].
Proof.
  apply (network_error_branch_means_nullish_body
           (scripted [Fulfilled (AxiosResponse.mk 200 (ApiResponse true (JStr "a") JNull));
                      Fulfilled (AxiosResponse.mk 200 JNull)])
           None
           [Example.AThrown
              (NativeError "Cannot read properties of null (reading 'success')")]).
  simpl. auto.
Defined.

(** *** The calls of a script *)

Lemma starts_nil {A : Type} (ys : list A) : starts [] ys.
Proof. exists ys. reflexivity. Qed.

Lemma starts_refl {A : Type} (xs : list A) : starts xs xs.
Proof. exists []. symmetry. apply app_nil_r. Qed.

Lemma starts_app {A : Type} (xs ys zs : list A) :
  starts ys zs -> starts (xs ++ ys) (xs ++ zs).
Proof. intros [rest ->]. exists rest. apply app_assoc. Qed.

Lemma starts_grow {A : Type} (xs ys zs : list A) :
  starts xs ys -> starts xs (ys ++ zs).
Proof. intros [rest ->]. exists (rest ++ zs)%list. symmetry. apply app_assoc. Qed.

Lemma issues_within {A : Type} (m : Example.Script A) sigs :
  issues m sigs -> within m sigs.
Proof.
  intros H console log. destruct (H console log) as (calls & E & S).
  exists calls. split; [exact E | ].
  destruct (fst (fst (m console log))); [rewrite S; apply starts_refl | exact S].
Qed.

Lemma within_grow {A : Type} (m : Example.Script A) sigs more :
  within m sigs -> within m (sigs ++ more).
Proof.
  intros H console log. destruct (H console log) as (calls & E & S).
  exists calls. split; [exact E | apply starts_grow; exact S].
Qed.

Lemma issues_pure {A : Type} (a : A) : issues (Example.pure a) [].
Proof. intros console log. exists []. split; [symmetry; apply app_nil_r | reflexivity]. Qed.

Lemma issues_raise {A : Type} (e : Thrown) : issues (@Example.raise A e) [].
Proof.
  intros console log. exists []. split; [symmetry; apply app_nil_r | apply starts_nil].
Qed.

Lemma issues_console_log args : issues (Example.console_log args) [].
Proof. intros console log. exists []. split; [symmetry; apply app_nil_r | reflexivity]. Qed.

Lemma issues_console_error args : issues (Example.console_error args) [].
Proof. intros console log. exists []. split; [symmetry; apply app_nil_r | reflexivity]. Qed.

Lemma issues_prop k v : issues (Example.prop k v) [].
Proof. destruct v; first [apply issues_pure | apply issues_raise]. Qed.

Lemma issues_guard answer : issues (Example.guard answer) [].
Proof. destruct answer; [apply issues_pure | apply issues_raise]. Qed.

Lemma issues_await_request (network : Network) this method path body auth :
  issues (Example.await (request network this method path body auth))
    [(method, path)].
Proof.
  intros console log.
  destruct (await_request network this method path body auth console log) as [v E].
  rewrite E. exists [request_call this method path body auth]. split; reflexivity.
Qed.

Lemma issues_and_then {A B : Type} (m : Example.Script A) (k : A -> Example.Script B)
    s1 s2 :
  issues m s1 -> (forall a, issues (k a) s2) ->
  issues (Example.seq m k) (s1 ++ s2).
Proof.
  intros Hm Hk console log. unfold Example.seq.
  destruct (Hm console log) as (calls & E & S).
  destruct (m console log) as [[[a | e] console'] log']; simpl in *; subst log'.
  - destruct (Hk a console' (log ++ calls)%list) as (calls' & E' & S').
    exists (calls ++ calls')%list. split; [rewrite E'; symmetry; apply app_assoc | ].
    rewrite map_app, S.
    destruct (fst (fst (k a console' (log ++ calls)%list)));
      [rewrite S'; reflexivity | apply starts_app; exact S'].
  - exists calls. split; [reflexivity | apply starts_grow; exact S].
Qed.

Lemma within_and_then {A B : Type} (m : Example.Script A) (k : A -> Example.Script B)
    s1 s2 :
  issues m s1 -> (forall a, within (k a) s2) ->
  within (Example.seq m k) (s1 ++ s2).
Proof.
  intros Hm Hk console log. unfold Example.seq.
  destruct (Hm console log) as (calls & E & S).
  destruct (m console log) as [[[a | e] console'] log']; simpl in *; subst log'.
  - destruct (Hk a console' (log ++ calls)%list) as (calls' & E' & S').
    exists (calls ++ calls')%list. split; [rewrite E'; symmetry; apply app_assoc | ].
    rewrite map_app, S. apply starts_app; exact S'.
  - exists calls. split; [reflexivity | apply starts_grow; exact S].
Qed.

Lemma within_silent_then {A B : Type} (m : Example.Script A)
    (k : A -> Example.Script B) sigs :
  issues m [] -> (forall a, within (k a) sigs) ->
  within (Example.seq m k) sigs.
Proof. intros Hm Hk. apply (within_and_then m k [] sigs); assumption. Qed.

Lemma issues_silent_then {A B : Type} (m : Example.Script A)
    (k : A -> Example.Script B) :
  issues m [] -> (forall a, issues (k a) []) ->
  issues (Example.seq m k) [].
Proof. intros Hm Hk. apply (issues_and_then m k [] []); assumption. Qed.

Lemma within_stop {A : Type} (m : Example.Script A) sigs :
  issues m [] -> within m sigs.
Proof. intros H. apply (within_grow m [] sigs). apply issues_within. exact H. Qed.

Lemma issues_failed response : issues (Example.failed response) [].
Proof.
  unfold Example.failed. apply issues_silent_then; [apply issues_prop | ].
  intros success. destruct (negb (truthy success)); [apply issues_pure | ].
  apply issues_silent_then; [apply issues_prop | intros; apply issues_pure].
Qed.

Lemma issues_succeeded response : issues (Example.succeeded response) [].
Proof.
  unfold Example.succeeded. apply issues_silent_then; [apply issues_prop | ].
  intros success. destruct (truthy success); [| apply issues_pure].
  apply issues_silent_then; [apply issues_prop | intros; apply issues_pure].
Qed.

Ltac silent :=
  repeat first
    [ apply issues_prop | apply issues_guard | apply issues_console_log
    | apply issues_console_error | apply issues_pure | apply issues_failed
    | apply issues_succeeded
    | match goal with
      | |- issues (if ?b then _ else _) _ => destruct b
      end
    | apply issues_silent_then; [| intros] ].

Ltac walk :=
  repeat first
    [ match goal with
      | |- within (if ?b then _ else _) _ => destruct b
      end
    | match goal with
      | |- within (Example.seq (Example.await (request _ _ _ _ _ _)) _)
             (?sig :: ?rest) =>
          apply (within_and_then _ _ [sig] rest);
          [apply issues_await_request | intros]
      end
    | apply within_silent_then; [solve [silent] | intros]
    | apply within_stop; solve [silent] ].

Lemma complexWorkflow_within (network : Network) (key : option string) :
  within (Example.complexWorkflow network key) workflow_signatures.
Proof.
  unfold Example.complexWorkflow, workflow_signatures, createAccount, createWallet,
    placeOrder, processMutation, getMarkets.
  change (getMarkets_path
            (Some (MarketFilters.mk (Some MarketType.spot)
                     (Some MarketStatus.active) None)))
    with "/markets?market_type=spot&status=active".
  cbv zeta. walk.
Qed.

(** X17.  Whatever the network answers, [complexWorkflow] makes at most
    four calls and always in the same order: the POST that creates the
    account, the POST that creates the wallet, the GET of the active spot
    markets, the POST that places the order; what it has sent when it
    ends, normally or by throwing, is the first few of these. *)
Theorem complexWorkflow_call_sequence :
  forall (network : Network) (API_SECRET_KEY : option string) console log,
    exists calls rest,
      snd (Example.complexWorkflow network API_SECRET_KEY console log)
      = (log ++ calls)%list
      /\ [(POST, "/process"); (POST, "/process");
          (GET, "/markets?market_type=spot&status=active"); (POST, "/process")]
         = (map signature calls ++ rest)%list
      /\ (List.length calls <= 4)%nat.
Proof.
  intros network key console log.
  destruct (complexWorkflow_within network key console log) as (calls & E & rest & S).
  exists calls, rest. split; [exact E | ]. split; [exact S | ].
  apply (f_equal (@List.length _)) in S.
  rewrite length_app, length_map in S. simpl in S.
  rewrite S. apply PeanoNat.Nat.le_add_r.
Qed.

Ltac run_script :=
  unfold Example.complexWorkflow, Example.failed, Example.succeeded,
    Example.seq, Example.prop, Example.guard, Example.pure, Example.raise,
    Example.console_log, Example.console_error, createAccount, createWallet,
    placeOrder, processMutation, getMarkets;
  change (getMarkets_path
            (Some (MarketFilters.mk (Some MarketType.spot)
                     (Some MarketStatus.active) None)))
    with "/markets?market_type=spot&status=active";
  simpl.

(** X18.  When the first call of [complexWorkflow] fails on the network
    with no usable response body, the script stops there: one call, the
    line [Failed to create account], a normal return. *)
Theorem complexWorkflow_stops_at_first_failure :
  forall (network : Network) (API_SECRET_KEY : option string) console log e,
    let this := Example.client API_SECRET_KEY in
    let call1 :=
      request_call this POST "/process"
        (tagged "Accounts" "CreateAccount"
           (JObj [("linked_account_id", JStr "trader-001");
                  ("account_type", JStr "retail")])) true in
    network log call1 = Rejected e ->
    usable_body e = false ->
    Example.complexWorkflow network API_SECRET_KEY console log
    = (Returned tt,
       (console
        ++ [Example.Log [Example.AText "Starting complex trading workflow..."];
            Example.Log [Example.AText "Step 1: Creating account..."];
            Example.Error [Example.AText "Failed to create account"]])%list,
       (log ++ [call1])%list).
Proof.
  intros network key console log e this call1 H U. subst this call1.
  unfold tagged in H. run_script.
  rewrite (await_request_rejected _ _ _ _ _ _ _ _ _ H U). simpl.
  rewrite <- !app_assoc. reflexivity.
Qed.

Lemma complexWorkflow_stops_at_first_failure_witness :
  Example.start
    (Example.complexWorkflow (failing_with (AxiosError "Network Error" None)) None)
  = (Returned tt,
     [Example.Log [Example.AText "Starting complex trading workflow..."];
      Example.Log [Example.AText "Step 1: Creating account..."];
      Example.Error [Example.AText "Failed to create account"]],
     [request_call (Example.client None) POST "/process"
        (tagged "Accounts" "CreateAccount"
           (JObj [("linked_account_id", JStr "trader-001");
                  ("account_type", JStr "retail")])) true]).
Proof.
  apply (complexWorkflow_stops_at_first_failure
           (failing_with (AxiosError "Network Error" None)) None [] []
           (AxiosError "Network Error" None)); reflexivity.
Defined.



(** X20.  [complexWorkflow] throws, after three calls and without placing
    an order, when the markets envelope reports success with a [data]
    that is truthy, whose [length] is not 0 and whose element 0 is null
    or undefined: an array that starts with null, an empty object, a
    number, [true].  The error is the TypeError of reading [name]. *)
Theorem complexWorkflow_throws_without_first_market :
  forall (network : Network) (API_SECRET_KEY : option string) console log
         (accountId walletId data : JsValue) (s1 s2 s3 : Z),
    let this := Example.client API_SECRET_KEY in
    let call1 :=
      request_call this POST "/process"
        (tagged "Accounts" "CreateAccount"
           (JObj [("linked_account_id", JStr "trader-001");
                  ("account_type", JStr "retail")])) true in
    let call2 :=
      request_call this POST "/process"
        (tagged "Accounts" "CreateWallet"
           (JObj [("cradle_account_id", accountId);
                  ("address", JStr "0.0.999999");
                  ("contract_id", JStr "0xabcdef123456")])) true in
    let call3 :=
      request_call this GET "/markets?market_type=spot&status=active"
        JUndefined true in
    network log call1
    = Fulfilled (AxiosResponse.mk s1
                   (ApiResponse true (tagged "Accounts" "CreateAccount" accountId)
                      JNull)) ->
    network (log ++ [call1])%list call2
    = Fulfilled (AxiosResponse.mk s2
                   (ApiResponse true (tagged "Accounts" "CreateWallet" walletId)
                      JNull)) ->
    network (log ++ [call1; call2])%list call3
    = Fulfilled (AxiosResponse.mk s3 (ApiResponse true data JNull)) ->
    truthy data = true ->
    Example.is_zero (Example.length_of data) = false ->
    is_nullish (Example.first_of data) = true ->
    exists message,
      Example.complexWorkflow network API_SECRET_KEY console log
      = (Threw (NativeError message),
         (console
          ++ [Example.Log [Example.AText "Starting complex trading workflow..."];
              Example.Log [Example.AText "Step 1: Creating account..."];
              Example.Log [Example.AText "Step 2: Creating wallet..."];
              Example.Log [Example.AText "Step 3: Fetching markets..."]])%list,
         (log ++ [call1; call2; call3])%list).
Proof.
  intros network key console log accountId walletId data s1 s2 s3
    this call1 call2 call3 H1 H2 H3 T Z0 N0.
  subst this call1 call2 call3. unfold tagged in *.
  assert (L2 : forall a b : HttpCall.t,
             (log ++ [a; b] = (log ++ [a]) ++ [b])%list)
    by (intros; rewrite <- app_assoc; reflexivity).
  rewrite L2 in H3. simpl in H1, H2, H3.
  run_script.
  rewrite (await_request_fulfilled _ _ _ _ _ _ _ _ _ H1). simpl.
  rewrite (await_request_fulfilled _ _ _ _ _ _ _ _ _ H2). simpl.
  rewrite (await_request_fulfilled _ _ _ _ _ _ _ _ _ H3). simpl.
  rewrite T. simpl. rewrite Z0. simpl.
  destruct (Example.first_of data); try discriminate N0; simpl;
    eexists; rewrite <- !app_assoc; reflexivity.
Qed.

Lemma complexWorkflow_throws_without_first_market_witness :
  exists message,
    fst (fst (Example.start
                (Example.complexWorkflow
                   (scripted
                      [Fulfilled (AxiosResponse.mk 200
                                    (ApiResponse true
                                       (tagged "Accounts" "CreateAccount" (JStr "acc-1"))
                                       JNull));
                       Fulfilled (AxiosResponse.mk 200
                                    (ApiResponse true
                                       (tagged "Accounts" "CreateWallet" (JStr "w-1"))
                                       JNull));
                       Fulfilled (AxiosResponse.mk 200
                                    (ApiResponse true (JObj []) JNull))])
                   None)))
    = Threw (NativeError message).
Proof.
  destruct (complexWorkflow_throws_without_first_market
              (scripted
                 [Fulfilled (AxiosResponse.mk 200
                               (ApiResponse true
                                  (tagged "Accounts" "CreateAccount" (JStr "acc-1"))
                                  JNull));
                  Fulfilled (AxiosResponse.mk 200
                               (ApiResponse true
                                  (tagged "Accounts" "CreateWallet" (JStr "w-1"))
                                  JNull));
                  Fulfilled (AxiosResponse.mk 200
                               (ApiResponse true (JObj []) JNull))])
              None [] [] (JStr "acc-1") (JStr "w-1") (JObj []) 200%Z 200%Z 200%Z
              eq_refl eq_refl eq_refl eq_refl eq_refl eq_refl) as [message E].
  exists message. unfold Example.start. rewrite E. reflexivity.
Defined.

Lemma last_body_snoc (log : list HttpCall.t) (call : HttpCall.t) :
  last_body (log ++ [call]) = HttpCall.data call.
Proof. unfold last_body. rewrite rev_app_distr. reflexivity. Qed.

(** X21.  The action a convenience wrapper sends carries the tags its
    helper looks for: of the seventeen helpers, exactly the one named
    after the wrapper's operation answers true on the body of the call,
    whatever the input is, so a backend that mirrors the tags of the
    action is recognised by the matching helper. *)
Theorem wrappers_send_what_helpers_recognise :
  forall (network : Network) (this : CradleApiClient.t) (input : JsValue)
         (id : string) log,
    Forall
      (fun wrapper : string * Async JsValue =>
         map (fun h => snd h (last_body (snd (snd wrapper log))))
             MutationResponseHelpers.members
         = map (fun h => Some (fst h =? fst wrapper))
               MutationResponseHelpers.members)
      (wrapper_calls network this input id).
Proof.
  intros network this input id log. unfold wrapper_calls.
  repeat (apply Forall_cons;
          [ cbv [snd fst createAccount updateAccountStatus createWallet createAsset
                   createExistingAsset createMarket updateMarketStatus placeOrder
                   cancelOrder addTimeSeriesRecord createLendingPool supplyLiquidity
                   withdrawLiquidity borrowAsset repayBorrow processMutation];
            match goal with
            | |- context [request ?n ?t ?m ?p ?b ?a ?l] =>
                destruct (request_total n t m p b a l) as [v Hv]; rewrite Hv
            end;
            cbv [snd fst]; rewrite last_body_snoc; reflexivity
          | ]).
  apply Forall_nil.
Qed.

(** X22.  For a failure with no usable response body, the [error] of the
    envelope [request] returns is the message of the axios error, or
    [Request failed] when that message is empty, the message of any other
    [Error], and [Unknown error occurred] for anything else that was
    thrown; it is non-empty unless the failure is an [Error] outside
    axios with an empty message. *)
Theorem failure_envelope_carries_the_message :
  forall (network : Network) (this : CradleApiClient.t) method path body auth log e,
    network log (request_call this method path body auth) = Rejected e ->
    usable_body e = false ->
    request network this method path body auth log
    = (Returned (ApiResponse false JNull (JStr (envelope_error e))),
       (log ++ [request_call this method path body auth])%list)
    /\ (envelope_error e = "" <-> e = NativeError "").
Proof.
  intros network this method path body auth log e H U.
  rewrite (request_rejected _ _ _ _ _ _ _ _ H).
  destruct e as [message response | message | v]; simpl in *.
  - rewrite U. unfold or_else. simpl. destruct (String.eqb_spec message "").
    + split; [reflexivity | split; discriminate].
    + split; [reflexivity | split; [contradiction | discriminate]].
  - split; [reflexivity | split; [intros ->; reflexivity | congruence]].
  - split; [reflexivity | split; discriminate].
Qed.

Lemma failure_envelope_carries_the_message_witness :
  request (failing_with (AxiosError "" None)) local_client GET "/accounts/x"
    JUndefined true []
  = (Returned (ApiResponse false JNull (JStr "Request failed")),
     [request_call local_client GET "/accounts/x" JUndefined true]).
Proof.
  apply (proj1 (failure_envelope_carries_the_message
                  (failing_with (AxiosError "" None)) local_client GET "/accounts/x"
                  JUndefined true [] (AxiosError "" None) eq_refl eq_refl)).
Defined.

(** ** More runs on concrete inputs *)

Example getLendingPoolByName_encodes :
  getLendingPoolByName_path "USDC Lending Pool/2?" = "/pools/name/USDC%20Lending%20Pool%2F2%3F".
Proof. reflexivity. Qed.

Example getOrders_value_with_separators :
  getOrders_path (Some (OrderFilters.mk (Some "w&status=closed") None None None None None))
  = "/orders?wallet=w%26status%3Dclosed"
  /\ Uri.parse_query "wallet=w%26status%3Dclosed" = [("wallet", "w&status=closed")].
Proof. split; reflexivity. Qed.

Example complexWorkflow_all_steps :
  let market :=
    JObj [("id", JStr "m1"); ("name", JStr "HBAR/USDC");
          ("asset_one", JStr "a1"); ("asset_two", JStr "a2")] in
  let order :=
    PlaceOrderResult.mk "o1" OrderFillStatus.partial "40.00" "20.00" ["t1"] in
  let run :=
    Example.start
      (Example.complexWorkflow
         (scripted
            [Fulfilled (AxiosResponse.mk 200
                          (ApiResponse true
                             (MutationResponse.js (MutationResponse.CreateAccount "acc-1"))
                             JNull));
             Fulfilled (AxiosResponse.mk 200
                          (ApiResponse true
                             (MutationResponse.js (MutationResponse.CreateWallet "w-1"))
                             JNull));
             Fulfilled (AxiosResponse.mk 200 (ApiResponse true (JArr [market]) JNull));
             Fulfilled (AxiosResponse.mk 200
                          (ApiResponse true
                             (MutationResponse.js (MutationResponse.PlaceOrder order))
                             JNull))])
         None) in
  fst (fst run) = Returned tt
  /\ map signature (snd run) = workflow_signatures
  /\ skipn 6 (snd (fst run))
     = [Example.Log [Example.ATemplate [Example.Text "Order placed successfully: ";
                                        Example.Interpolated (JStr "o1")]];
        Example.Log [Example.ATemplate [Example.Text "Order status: ";
                                        Example.Interpolated (JStr "partial")]];
        Example.Log [Example.ATemplate [Example.Text "Filled: ";
                                        Example.Interpolated (JStr "40.00");
                                        Example.Text "/";
                                        Example.Interpolated (JStr "20.00")]];
        Example.Log [Example.AText "Workflow completed successfully!"]].
Proof. repeat split. Qed.

Example getLendingPoolByName_lone_surrogate :
  let name := String (ascii_of_nat 237) (String (ascii_of_nat 160)
                (String (ascii_of_nat 128) "")) in
  Uri.well_formed name = false
  /\ Uri.well_formed "USDC Lending Pool" = true
  /\ run (getLendingPoolByName (backend_returning 200 JNull) local_client name)
     = (Threw (NativeError "URI malformed"), []).
Proof. repeat split. Qed.
